(** * djangorest_alchemy.mixins: pagination adapter, action handlers and
      the manager-binding metaclass

    A shallow embedding of [src/djangorest_alchemy/mixins.py].  Python
    values are an inductive type, dictionaries are stdpp finite maps,
    exceptions are an error type, and every call that leaves the module
    (the pluggable paginator, the manager factory, the manager method) is
    recorded in a trace so that "is called" and "is never called" are
    statements about the model. *)

From Stdlib Require Import ZArith String Ascii List Lia Bool.
From stdpp Require Import base gmap strings list.

Set Warnings "-register-all".
Open Scope string_scope.
Open Scope Z_scope.

(** ** Python values *)

(** The values a manager method can hand back and a request can carry. *)
Inductive pyval :=
| VNone
| VBool (b : bool)
| VInt (z : Z)
| VStr (s : string)
| VList (l : list pyval)
| VDict (d : gmap string pyval).

(** Path parameters and query-string parameters: a string as captured from
    the URL, an integer produced by a path converter, or [None]. *)
Inductive param :=
| PNone
| PInt (z : Z)
| PStr (s : string).

(** [bool(v)]. *)
Definition truthy (v : pyval) : bool :=
  match v with
  | VNone => false
  | VBool b => b
  | VInt z => negb (Z.eqb z 0)
  | VStr s => negb (String.eqb s EmptyString)
  | VList l => negb (Nat.eqb (length l) 0)
  | VDict d => negb (Nat.eqb (size d) 0)
  end.

Definition param_truthy (p : param) : bool :=
  match p with
  | PNone => false
  | PInt z => negb (Z.eqb z 0)
  | PStr s => negb (String.eqb s EmptyString)
  end.

(** [a or b]: the first operand when it is truthy, else the second. *)
Definition py_or (a b : param) : param :=
  if param_truthy a then a else b.

(** [d.get(k)] on a dictionary of parameters: [None] when the key is absent. *)
Definition dict_get (d : gmap string param) (k : string) : param :=
  default PNone (d !! k).

(** ** Exceptions, results and traced computations *)

Inductive exn :=
| AssertionError (msg : string)
| AttributeError (attr : string)
| KeyError
| TypeError
| ValueError
| ZeroDivisionError
| InvalidPage
| PageNotAnInteger
| EmptyPage
| OtherError (name : string).

(** [PageNotAnInteger] and [EmptyPage] are subclasses of [InvalidPage]. *)
Definition is_InvalidPage (e : exn) : bool :=
  match e with
  | InvalidPage | PageNotAnInteger | EmptyPage => true
  | _ => false
  end.

Inductive result (A : Type) :=
| Ok (a : A)
| Raise (e : exn).
Arguments Ok {A} a.
Arguments Raise {A} e.

#[global] Instance result_ret : MRet result := fun A a => Ok a.
#[global] Instance result_bind : MBind result := fun A B f m =>
  match m with
  | Ok a => f a
  | Raise e => Raise e
  end.

(** Calls that leave the module. *)
Inductive event :=
| EvPaginator (per_page : param) (orphans : Z) (allow_empty_first_page : bool)
| EvCount
| EvNumPages
| EvPage (number : Z)
| EvManagerFactory
| EvManagerCall (name : string) (data : pyval) (pk : param).

(** A computation: the calls it made, in order, and how it ended. *)
Record outcome (A : Type) := Outcome {
  trace : list event;
  value : result A
}.
Arguments Outcome {A} trace value.
Arguments trace {A} o.
Arguments value {A} o.

#[global] Instance outcome_ret : MRet outcome := fun A a => Outcome [] (Ok a).
#[global] Instance outcome_bind : MBind outcome := fun A B f m =>
  match value m with
  | Ok a => Outcome (trace m ++ trace (f a))%list (value (f a))
  | Raise e => Outcome (trace m) (Raise e)
  end.

Definition lift {A} (r : result A) : outcome A := Outcome [] r.
Definition raise {A} (e : exn) : outcome A := Outcome [] (Raise e).

(** An external call: logged, then its result. *)
Definition call {A} (ev : event) (r : result A) : outcome A := Outcome [ev] r.

(** [assert hasattr(obj, attr), msg] followed by the read of the attribute. *)
Definition assert_hasattr {A} (a : option A) (msg : string) : outcome A :=
  match a with
  | Some x => mret x
  | None => raise (AssertionError msg)
  end.

(** ** Strings: [str.lower] and [int] *)

(** ASCII text: every byte is below 128.  On such text [lower] below is
    [str.lower] and [int_of_string] is [int]. *)
Definition is_ascii_char (c : ascii) : bool := Nat.ltb (nat_of_ascii c) 128.

Fixpoint is_ascii_text (s : string) : bool :=
  match s with
  | EmptyString => true
  | String c s' => (is_ascii_char c && is_ascii_text s')%bool
  end.

Definition param_is_ascii (p : param) : bool :=
  match p with
  | PStr s => is_ascii_text s
  | _ => true
  end.

Definition lower_ascii (c : ascii) : ascii :=
  let n := nat_of_ascii c in
  if (Nat.leb 65 n && Nat.leb n 90)%bool then ascii_of_nat (n + 32) else c.

(** [s.lower()] on ASCII text. *)
Fixpoint lower (s : string) : string :=
  match s with
  | EmptyString => EmptyString
  | String c s' => String (lower_ascii c) (lower s')
  end.

(** The blanks [int] skips around an ASCII literal: tab, line feed,
    vertical tab, form feed, carriage return and space. *)
Definition is_space (c : ascii) : bool :=
  let n := nat_of_ascii c in
  (Nat.eqb n 32 || (Nat.leb 9 n && Nat.leb n 13))%bool.

Definition is_digit (c : ascii) : bool :=
  let n := nat_of_ascii c in (Nat.leb 48 n && Nat.leb n 57)%bool.

Definition digit_value (c : ascii) : Z := Z.of_nat (nat_of_ascii c) - 48.

Fixpoint lstrip (cs : list ascii) : list ascii :=
  match cs with
  | c :: cs' => if is_space c then lstrip cs' else cs
  | [] => []
  end.

Definition strip (cs : list ascii) : list ascii :=
  rev (lstrip (rev (lstrip cs))).

(** Decimal digits, a single underscore allowed between two digits. *)
Fixpoint digits_value (after_digit : bool) (acc : Z) (cs : list ascii) : option Z :=
  match cs with
  | [] => if after_digit then Some acc else None
  | c :: cs' =>
      if is_digit c then digits_value true (acc * 10 + digit_value c) cs'
      else if (Ascii.eqb c "_" && after_digit)%bool then digits_value false acc cs'
      else None
  end.

(** [sys.get_int_max_str_digits()]: a literal with more digit characters
    (leading zeros counted, sign and underscores not) is refused. *)
Definition int_max_str_digits : Z := 4300.

Definition count_digits (cs : list ascii) : Z :=
  Z.of_nat (length (List.filter is_digit cs)).

(** The digits of a literal, within the limit. *)
Definition read_digits (cs : list ascii) : option Z :=
  if int_max_str_digits <? count_digits cs then None
  else digits_value false 0 cs.

(** [int(s)] for a string of ASCII text (Python 3 literal syntax, base 10):
    surrounding blanks, an optional sign, then the digits.  Strings are
    read as ASCII text: on a string with a byte above 127 this says
    [ValueError], which is what [int] does only when the text holds no
    decimal literal in another script. *)
Definition int_of_string (s : string) : result Z :=
  match strip (list_ascii_of_string s) with
  | c :: cs =>
      if Ascii.eqb c "-" then
        match read_digits cs with Some z => Ok (- z) | None => Raise ValueError end
      else if Ascii.eqb c "+" then
        match read_digits cs with Some z => Ok z | None => Raise ValueError end
      else
        match read_digits (c :: cs) with Some z => Ok z | None => Raise ValueError end
  | [] => Raise ValueError
  end.

(** [int(page)]. *)
Definition int_ (p : param) : result Z :=
  match p with
  | PNone => Raise TypeError
  | PInt z => Ok z
  | PStr s => int_of_string s
  end.

(** ** Responses and the status table *)

Definition HTTP_200_OK : Z := 200.
Definition HTTP_201_CREATED : Z := 201.
Definition HTTP_202_ACCEPTED : Z := 202.

Definition STATUS_CODES : gmap string Z :=
  {[ "created" := HTTP_201_CREATED;
     "updated" := HTTP_200_OK;
     "accepted" := HTTP_202_ACCEPTED ]}.

(** [Response(data, status)]. *)
Record Response := mkResponse {
  resp_data : pyval;
  status_code : Z
}.

(** [resp[key]] for a string key. *)
Definition getitem (resp : pyval) (key : string) : result pyval :=
  match resp with
  | VDict d =>
      match d !! key with
      | Some v => Ok v
      | None => Raise KeyError
      end
  | _ => Raise TypeError
  end.

(** Lists and dictionaries cannot be dictionary keys. *)
Definition hashable (v : pyval) : bool :=
  match v with
  | VList _ | VDict _ => false
  | _ => true
  end.

(** [codes[key]] where every key of [codes] is a string. *)
Definition table_getitem (codes : gmap string Z) (key : pyval) : result Z :=
  match key with
  | VStr s =>
      match codes !! s with
      | Some c => Ok c
      | None => Raise KeyError
      end
  | VList _ | VDict _ => Raise TypeError
  | _ => Raise KeyError
  end.

(** ** Managers, viewsets and requests *)

(** A manager method: [(data, pk, **kwargs)] to a result or an exception. *)
Definition method : Type := pyval -> param -> gmap string param -> result pyval.

(** A manager instance, seen through [getattr(mgr, name)]. *)
Record Manager := mkManager {
  mgr_methods : gmap string method
}.

(** [request.data] may be missing; [request.GET] is the query string. *)
Record Request := mkRequest {
  data : option pyval;
  GET : gmap string param
}.

(** A manager class: its optional [action_methods] declaration and its
    constructor, called with [context={'request': request}]. *)
Record ManagerClass := mkManagerClass {
  action_methods : option (gmap string (list string));
  mc_construct : Request -> result Manager
}.

(** Where a viewset's [manager_factory] comes from: [ManagerMixin], or an
    override of the viewset's own. *)
Inductive factory :=
| MixinFactory
| OwnFactory (f : Request -> result Manager).

Record ViewSet := mkViewSet {
  manager_class : option ManagerClass;
  manager_factory : option factory
}.

(** [ManagerMixin.manager_factory]. *)
Definition ManagerMixin_manager_factory (self : ViewSet) (request : Request)
  : result Manager :=
  match manager_class self with
  | None => Raise (AssertionError "manager_class has to be specified")
  | Some mc => mc_construct mc request
  end.

(** The body behind [self.manager_factory]: the mixin's or the override. *)
Definition run_factory (self : ViewSet) (f : factory) (request : Request)
  : result Manager :=
  match f with
  | MixinFactory => ManagerMixin_manager_factory self request
  | OwnFactory g => g request
  end.

(** [self.manager_factory(context={'request': request})]. *)
Definition call_manager_factory (self : ViewSet) (f : factory) (request : Request)
  : outcome Manager :=
  call EvManagerFactory (run_factory self f request).

(** [getattr(mgr, name)]. *)
Definition getattr (mgr : Manager) (name : string) : result method :=
  match mgr_methods mgr !! name with
  | Some m => Ok m
  | None => Raise (AttributeError name)
  end.

(** ** make_action_method *)

(** Lines 98-102 of [func], over an arbitrary status table. *)
Definition respond (codes : gmap string Z) (resp : pyval) : result Response :=
  if negb (truthy resp) then Ok (mkResponse resp HTTP_200_OK)
  else
    status ← getitem resp "status";
    code ← table_getitem codes status;
    Ok (mkResponse resp code).

(** Lines 86-96 of [func]: the three assertions, the factory call, the
    lookup of the method and its call. *)
Definition dispatch (name : string) (self : ViewSet) (request : Request)
    (pk : param) (kwargs : gmap string param) : outcome pyval :=
  payload ← assert_hasattr (data request) "request object must have data";
  _ ← assert_hasattr (manager_class self) "viewset must have";
  f ← assert_hasattr (manager_factory self) "viewset must provide a";
  mgr ← call_manager_factory self f request;
  mgr_method ← lift (getattr mgr name);
  call (EvManagerCall name payload pk) (mgr_method payload pk kwargs).

(** The closure [func] returned by [make_action_method(name, methods)]. *)
Definition func (name : string) (self : ViewSet) (request : Request)
    (pk : param) (kwargs : gmap string param) : outcome Response :=
  resp ← dispatch name self request pk kwargs;
  lift (respond STATUS_CODES resp).

(** A generated handler: the bound [name] and the two function attributes. *)
Record Handler := mkHandler {
  h_name : string;
  bind_to_methods : list string;
  h_kwargs : gmap string pyval
}.

Definition make_action_method (name : string) (methods : list string)
    (kwargs : gmap string pyval) : Handler :=
  {| h_name := name; bind_to_methods := methods; h_kwargs := kwargs |}.

(** Calling a handler is calling [func] with the name it closed over. *)
Definition invoke (h : Handler) : ViewSet -> Request -> param -> gmap string param
    -> outcome Response :=
  func (h_name h).

(** ** ManagerMeta *)

(** What a class dictionary can hold. *)
Inductive attr :=
| AManagerClass (mc : ManagerClass)
| AHandler (h : Handler)
| AValue (v : pyval).

(** A class as [type.__new__(cls, name, bases, attrs)] builds it. *)
Inductive PyClass :=
| mkClass (name : string) (bases : list PyClass) (dict : gmap string attr).

Definition cls_name (c : PyClass) : string :=
  match c with mkClass n _ _ => n end.
Definition cls_bases (c : PyClass) : list PyClass :=
  match c with mkClass _ b _ => b end.
Definition cls_dict (c : PyClass) : gmap string attr :=
  match c with mkClass _ _ d => d end.

(** [mgr_class.action_methods] when [hasattr(mgr_class, 'action_methods')]. *)
Definition attr_action_methods (mgr_class : attr)
  : option (gmap string (list string)) :=
  match mgr_class with
  | AManagerClass mc => action_methods mc
  | _ => None
  end.

(** One turn of the loop: [attrs[mname] = make_action_method(mname.lower(), methods)]. *)
Definition bind_action (attrs : gmap string attr) (it : string * list string)
  : gmap string attr :=
  <[ it.1 := AHandler (make_action_method (lower it.1) it.2 ∅) ]> attrs.

(** The loop over [action_methods.items()]. *)
Definition bind_actions (attrs : gmap string attr)
    (items : list (string * list string)) : gmap string attr :=
  foldl bind_action attrs items.

(** [ManagerMeta.__new__]. *)
Definition ManagerMeta_new (name : string) (bases : list PyClass)
    (attrs : gmap string attr) : PyClass :=
  match attrs !! "manager_class" with
  | Some mgr_class =>
      match attr_action_methods mgr_class with
      | Some am => mkClass name bases (bind_actions attrs (map_to_list am))
      | None => mkClass name bases attrs
      end
  | None => mkClass name bases attrs
  end.

(** ** MultipleObjectMixin *)

Section Pagination.

Context {item query paginator : Type}.

(** [django.core.paginator.Page(object_list, number, paginator)]. *)
Record Page := mkPage {
  object_list : list item;
  number : Z;
  page_paginator : paginator
}.

(** What the adapter needs of a paginator class: the constructor, [count],
    [num_pages], [page(number)], and [has_other_pages()] of the pages it
    hands out.  Anything that reaches the database may raise. *)
Record PaginatorClass := mkPaginatorClass {
  pc_new : query -> param -> Z -> bool -> result paginator;
  pc_count : paginator -> result Z;
  pc_num_pages : paginator -> result Z;
  pc_page : paginator -> Z -> result Page;
  pc_has_other_pages : Page -> bool
}.

(** The view: the class attributes of the mixin and what the framework
    sets on the instance ([kwargs], [request]). *)
Record View := mkView {
  allow_empty : bool;
  paginate_by : param;
  paginator_class : PaginatorClass;
  kwargs : gmap string param;
  request : Request
}.

Definition filter_query_object (self : View) (query_object : query) : query :=
  query_object.

Definition get_paginate_by (self : View) (query_object : query) : param :=
  paginate_by self.

Definition get_paginator (self : View) (query_object : query) (per_page : param)
    (orphans : Z) (allow_empty_first_page : bool) : outcome paginator :=
  call (EvPaginator per_page orphans allow_empty_first_page)
       (pc_new (paginator_class self) query_object per_page orphans
               allow_empty_first_page).

Definition get_allow_empty (self : View) : bool := allow_empty self.

(** Line 35: [self.kwargs.get('page') or self.request.GET.get('page') or 1]. *)
Definition requested_page (self : View) : param :=
  py_or (dict_get (kwargs self) "page")
        (py_or (dict_get (GET (request self)) "page") (PInt 1)).

Definition is_last (page : param) : bool :=
  match page with
  | PStr s => String.eqb s "last"
  | _ => false
  end.

(** Lines 36-43: the [try] / [except ValueError] around [int(page)]. *)
Definition resolve_page_number (self : View) (p : paginator) (page : param)
  : outcome Z :=
  match int_ page with
  | Ok n => mret n
  | Raise ValueError =>
      if is_last page then call EvNumPages (pc_num_pages (paginator_class self) p)
      else raise InvalidPage
  | Raise e => raise e
  end.

Definition paginate_query_object (self : View) (query_object : query)
    (page_size : param) : outcome (paginator * Page * list item * bool) :=
  p ← get_paginator self query_object page_size 0 (get_allow_empty self);
  let page := requested_page self in
  page_number ← resolve_page_number self p page;
  c ← call EvCount (pc_count (paginator_class self) p);
  if negb (Z.eqb c 0) then
    pg ← call (EvPage page_number) (pc_page (paginator_class self) p page_number);
    mret (p, pg, object_list pg, pc_has_other_pages (paginator_class self) pg)
  else
    mret (p, mkPage [] 1 p, [], false).

Definition get_page (self : View) (queryset : query) : outcome (list item) :=
  let page_size := get_paginate_by self queryset in
  let query_object := filter_query_object self queryset in
  r ← paginate_query_object self query_object page_size;
  let '(_, _, query_object, _) := r in
  mret query_object.

End Pagination.

Arguments Page : clear implicits.
Arguments PaginatorClass : clear implicits.
Arguments View : clear implicits.

(** ** The default paginator

    [paginator_class = Paginator]: a model of [django.core.paginator.Paginator]
    over a list, used for the concrete runs below. *)

Section DjangoPaginator.

Context {item : Type}.

Record Paginator := mkPaginator {
  dp_object_list : list item;
  per_page : Z;
  orphans : Z;
  allow_empty_first_page : bool
}.

Definition Paginator_new (object_list : list item) (per_page : param)
    (orphans : Z) (allow_empty_first_page : bool) : result Paginator :=
  n ← int_ per_page;
  Ok (mkPaginator object_list n orphans allow_empty_first_page).

Definition Paginator_count (p : Paginator) : Z :=
  Z.of_nat (length (dp_object_list p)).

(** [int(ceil(hits / float(per_page)))]. *)
Definition Paginator_num_pages (p : Paginator) : result Z :=
  if (Z.eqb (Paginator_count p) 0 && negb (allow_empty_first_page p))%bool then Ok 0
  else
    let hits := Z.max 1 (Paginator_count p - orphans p) in
    if Z.eqb (per_page p) 0 then Raise ZeroDivisionError
    else Ok (- ((- hits) / per_page p)).

Definition validate_number (p : Paginator) (number : Z) : result Z :=
  if number <? 1 then Raise EmptyPage
  else
    np ← Paginator_num_pages p;
    if (np <? number) && negb (Z.eqb number 1 && allow_empty_first_page p)
    then Raise EmptyPage
    else Ok number.

(** [l[bottom:top]]. *)
Definition slice (l : list item) (bottom top : Z) : list item :=
  let len := Z.of_nat (length l) in
  let clamp i := Z.min len (if i <? 0 then Z.max 0 (len + i) else i) in
  let lo := clamp bottom in
  let hi := clamp top in
  firstn (Z.to_nat (hi - lo)) (skipn (Z.to_nat lo) l).

Definition Paginator_page (p : Paginator) (number : Z)
  : result (Page item Paginator) :=
  number ← validate_number p number;
  let bottom := (number - 1) * per_page p in
  let top := bottom + per_page p in
  let top := if Paginator_count p <=? top + orphans p then Paginator_count p else top in
  Ok (mkPage (slice (dp_object_list p) bottom top) number p).

(** [Page.has_other_pages]: [has_previous() or has_next()]. *)
Definition Page_has_other_pages (pg : Page item Paginator) : bool :=
  (1 <? number pg) ||
  match Paginator_num_pages (page_paginator pg) with
  | Ok np => number pg <? np
  | Raise _ => false
  end.

Definition DjangoPaginator : PaginatorClass item (list item) Paginator :=
  {| pc_new := Paginator_new;
     pc_count := fun p => Ok (Paginator_count p);
     pc_num_pages := Paginator_num_pages;
     pc_page := Paginator_page;
     pc_has_other_pages := Page_has_other_pages |}.

End DjangoPaginator.

Arguments Paginator : clear implicits.

(** ** Sample objects *)

(** A manager declaring [action_methods = {'DoThing': ['POST']}] whose
    [DoThing] method returns [{'status': 'created'}]. *)
Definition created : pyval := VDict {[ "status" := VStr "created" ]}.

Definition DoThing : method := fun _ _ _ => Ok created.

Definition MyManager : ManagerClass :=
  {| action_methods := Some {[ "DoThing" := ["POST"] ]};
     mc_construct := fun _ => Ok (mkManager {[ "DoThing" := DoThing ]}) |}.

Definition MyViewSet : PyClass :=
  ManagerMeta_new "MyViewSet" [] {[ "manager_class" := AManagerClass MyManager ]}.

(** An instance of [MyViewSet] and a POST request with an empty payload. *)
Definition my_viewset : ViewSet :=
  {| manager_class := Some MyManager; manager_factory := Some MixinFactory |}.

Definition post : Request := {| data := Some (VDict ∅); GET := ∅ |}.

(** A manager with one lower-case action returning [v]. *)
Definition returning (v : pyval) : ManagerClass :=
  {| action_methods := Some {[ "my_method" := ["POST"] ]};
     mc_construct := fun _ => Ok (mkManager {[ "my_method" := fun _ _ _ => Ok v ]}) |}.

Definition viewset_of (mc : ManagerClass) : ViewSet :=
  {| manager_class := Some mc; manager_factory := Some MixinFactory |}.

(** A list view paginated by two, asked for the page [page] in the query
    string. *)
Definition list_view (allow : bool) (page : param)
  : View Z (list Z) (Paginator Z) :=
  {| allow_empty := allow;
     paginate_by := PInt 2;
     paginator_class := DjangoPaginator;
     kwargs := ∅;
     request := {| data := None; GET := {[ "page" := page ]} |} |}.


(** A view whose path parameter 'page' is the empty string and whose query
    string says [page=0]. *)
Definition falsy_page_view : View Z (list Z) (Paginator Z) :=
  {| allow_empty := true;
     paginate_by := PInt 2;
     paginator_class := DjangoPaginator;
     kwargs := {[ "page" := PStr EmptyString ]};
     request := {| data := None; GET := {[ "page" := PInt 0 ]} |} |}.

(** A request without [data], a viewset that declares nothing, and one that
    has a manager class but no factory. *)
Definition no_data : Request := {| data := None; GET := ∅ |}.

Definition bare_viewset : ViewSet :=
  {| manager_class := None; manager_factory := None |}.

Definition viewset_without_factory (mc : ManagerClass) : ViewSet :=
  {| manager_class := Some mc; manager_factory := None |}.

(** A manager class whose constructor raises, and one whose only method
    raises. *)
Definition unbuildable (e : exn) : ManagerClass :=
  {| action_methods := Some {[ "my_method" := ["POST"] ]};
     mc_construct := fun _ => Raise e |}.

Definition raising (e : exn) : ManagerClass :=
  {| action_methods := Some {[ "my_method" := ["POST"] ]};
     mc_construct := fun _ => Ok (mkManager {[ "my_method" := fun _ _ _ => Raise e ]}) |}.

(** A manager class declaring two actions that differ only in case. *)
Definition TwoSpellings : ManagerClass :=
  {| action_methods := Some {[ "DoThing" := ["POST"]; "dothing" := ["GET"] ]};
     mc_construct := fun _ => Ok (mkManager {[ "dothing" := DoThing ]}) |}.

(** The default paginator with a [count] that fails, and with a [num_pages]
    that fails. *)
Definition BrokenCount (e : exn) : PaginatorClass Z (list Z) (Paginator Z) :=
  {| pc_new := Paginator_new;
     pc_count := fun _ => Raise e;
     pc_num_pages := Paginator_num_pages;
     pc_page := Paginator_page;
     pc_has_other_pages := Page_has_other_pages |}.

Definition BrokenNumPages (e : exn) : PaginatorClass Z (list Z) (Paginator Z) :=
  {| pc_new := Paginator_new;
     pc_count := fun p => Ok (Paginator_count p);
     pc_num_pages := fun _ => Raise e;
     pc_page := Paginator_page;
     pc_has_other_pages := Page_has_other_pages |}.

(** A view with the page given in the path, in the query string, or both,
    over a chosen paginator class and page size. *)
Definition routed_view (pc : PaginatorClass Z (list Z) (Paginator Z))
    (size path_page query_page : param) : View Z (list Z) (Paginator Z) :=
  {| allow_empty := true;
     paginate_by := size;
     paginator_class := pc;
     kwargs := {[ "page" := path_page ]};
     request := {| data := None; GET := {[ "page" := query_page ]} |} |}.

(** * Properties *)

(** ** Running traced computations *)

Ltac run :=
  unfold mbind, outcome_bind, result_bind, mret, outcome_ret, result_ret,
    call, lift, raise, assert_hasattr in *; simpl in *.

Lemma value_bind {A B} (m : outcome A) (k : A -> outcome B) a :
  value m = Ok a -> value (m ≫= k) = value (k a).
Proof. intros H. run. now rewrite H. Qed.

Lemma trace_bind {A B} (m : outcome A) (k : A -> outcome B) a :
  value m = Ok a -> trace (m ≫= k) = (trace m ++ trace (k a))%list.
Proof. intros H. run. now rewrite H. Qed.

Lemma value_bind_raise {A B} (m : outcome A) (k : A -> outcome B) e :
  value m = Raise e -> value (m ≫= k) = Raise e.
Proof. intros H. run. now rewrite H. Qed.

(** ** The generated handler *)

(** A mapping that has a ['status'] entry is not empty, hence truthy. *)
Lemma dict_with_key_truthy (d : gmap string pyval) k v :
  d !! k = Some v -> truthy (VDict d) = true.
Proof.
  intros H. simpl. destruct (size d) eqn:E; [|reflexivity].
  apply map_size_empty_iff in E. subst d. now rewrite lookup_empty in H.
Qed.

(** The handler answers with whatever lines 98-102 make of the manager's
    result. *)
Lemma func_value name self request pk kwargs resp :
  value (dispatch name self request pk kwargs) = Ok resp ->
  value (func name self request pk kwargs) = respond STATUS_CODES resp.
Proof. intros H. unfold func. now rewrite (value_bind _ _ _ H). Qed.

(** What [dispatch] does once the three assertions hold and the factory has
    produced a manager. *)
Lemma dispatch_run name self request pk kwargs payload mc f mgr :
  data request = Some payload ->
  manager_class self = Some mc ->
  manager_factory self = Some f ->
  run_factory self f request = Ok mgr ->
  dispatch name self request pk kwargs =
  match mgr_methods mgr !! name with
  | Some m => Outcome [EvManagerFactory; EvManagerCall name payload pk]
                      (m payload pk kwargs)
  | None => Outcome [EvManagerFactory] (Raise (AttributeError name))
  end.
Proof.
  intros Hd Hc Hf Hm. unfold dispatch, call_manager_factory, getattr.
  rewrite Hd, Hc, Hf. run. rewrite Hm. simpl.
  destruct (mgr_methods mgr !! name); reflexivity.
Qed.

(** C2: when the manager method returns a mapping whose ['status'] is
    'created', 'updated' or 'accepted', the handler made by
    [make_action_method] answers 201, 200 or 202 respectively, and the body
    is the whole mapping. *)
Theorem handler_known_status name methods kw self request pk kwargs d s code :
  value (dispatch name self request pk kwargs) = Ok (VDict d) ->
  d !! "status" = Some (VStr s) ->
  (s = "created" /\ code = 201) \/
  (s = "updated" /\ code = 200) \/
  (s = "accepted" /\ code = 202) ->
  value (invoke (make_action_method name methods kw) self request pk kwargs)
  = Ok (mkResponse (VDict d) code).
Proof.
  intros Hd Hs Hc. unfold invoke, make_action_method. simpl h_name.
  rewrite (func_value _ _ _ _ _ _ Hd). unfold respond.
  rewrite (dict_with_key_truthy _ _ _ Hs). simpl. rewrite Hs. run.
  destruct Hc as [[-> ->] | [[-> ->] | [-> ->]]]; reflexivity.
Qed.

Lemma handler_known_status_witness :
  value (invoke (make_action_method "my_method" ["POST"] ∅)
                (viewset_of (returning created)) post PNone ∅)
  = Ok (mkResponse created 201).
Proof.
  apply (handler_known_status "my_method" ["POST"] ∅
           (viewset_of (returning created)) post PNone ∅
           {[ "status" := VStr "created" ]} "created" 201).
  - reflexivity.
  - reflexivity.
  - left. split; reflexivity.
Defined.

(** C7: when the manager method returns a falsy value ([None], an empty
    mapping), the handler answers 200 with that value as the body, whatever
    the status table holds. *)
Theorem handler_falsy_result name methods kw self request pk kwargs resp :
  value (dispatch name self request pk kwargs) = Ok resp ->
  truthy resp = false ->
  value (invoke (make_action_method name methods kw) self request pk kwargs)
  = Ok (mkResponse resp 200) /\
  forall codes, respond codes resp = Ok (mkResponse resp 200).
Proof.
  intros Hd Hf.
  assert (Hr : forall codes, respond codes resp = Ok (mkResponse resp 200)).
  { intros codes. unfold respond. now rewrite Hf. }
  split; [|exact Hr].
  unfold invoke, make_action_method. simpl h_name.
  rewrite (func_value _ _ _ _ _ _ Hd). apply Hr.
Qed.

Lemma handler_falsy_result_witness :
  (value (invoke (make_action_method "my_method" ["POST"] ∅)
                 (viewset_of (returning VNone)) post PNone ∅)
   = Ok (mkResponse VNone 200) /\
   forall codes, respond codes VNone = Ok (mkResponse VNone 200)) /\
  (value (invoke (make_action_method "my_method" ["POST"] ∅)
                 (viewset_of (returning (VDict ∅))) post PNone ∅)
   = Ok (mkResponse (VDict ∅) 200) /\
   forall codes, respond codes (VDict ∅) = Ok (mkResponse (VDict ∅) 200)).
Proof.
  split.
  - apply (handler_falsy_result "my_method" ["POST"] ∅
             (viewset_of (returning VNone)) post PNone ∅ VNone);
      reflexivity.
  - apply (handler_falsy_result "my_method" ["POST"] ∅
             (viewset_of (returning (VDict ∅))) post PNone ∅ (VDict ∅));
      reflexivity.
Defined.

(** C8: when the manager method returns a mapping whose ['status'] is a
    value outside 'created', 'updated', 'accepted' (such as 'bogus'), the
    handler raises [KeyError]: there is no response and no fallback code. *)
Theorem handler_unknown_status name methods kw self request pk kwargs d v :
  value (dispatch name self request pk kwargs) = Ok (VDict d) ->
  d !! "status" = Some v ->
  hashable v = true ->
  v <> VStr "created" -> v <> VStr "updated" -> v <> VStr "accepted" ->
  value (invoke (make_action_method name methods kw) self request pk kwargs)
  = Raise KeyError.
Proof.
  intros Hd Hs Hh H1 H2 H3. unfold invoke, make_action_method. simpl h_name.
  rewrite (func_value _ _ _ _ _ _ Hd). unfold respond.
  rewrite (dict_with_key_truthy _ _ _ Hs). simpl. rewrite Hs. run.
  destruct v as [| | |s| |]; try reflexivity; try discriminate.
  assert (Hn : STATUS_CODES !! s = None).
  { unfold STATUS_CODES. rewrite !lookup_insert_ne by congruence.
    rewrite lookup_singleton_ne by congruence. reflexivity. }
  unfold table_getitem. now rewrite Hn.
Qed.

Lemma handler_unknown_status_witness :
  value (invoke (make_action_method "my_method" ["POST"] ∅)
                (viewset_of (returning (VDict {[ "status" := VStr "bogus" ]})))
                post PNone ∅)
  = Raise KeyError.
Proof.
  apply (handler_unknown_status "my_method" ["POST"] ∅
           (viewset_of (returning (VDict {[ "status" := VStr "bogus" ]})))
           post PNone ∅ {[ "status" := VStr "bogus" ]} (VStr "bogus"));
    (reflexivity || discriminate).
Defined.

(** ** The metaclass *)

Lemma bind_actions_cons attrs it items :
  bind_actions attrs (it :: items) = bind_actions (bind_action attrs it) items.
Proof. reflexivity. Qed.

(** A name that is not declared keeps the attribute it had. *)
Lemma bind_actions_other items : forall attrs k,
  k ∉ items.*1 -> bind_actions attrs items !! k = attrs !! k.
Proof.
  induction items as [|[n ms] items IH]; intros attrs k Hk; [reflexivity|].
  rewrite fmap_cons in Hk. apply not_elem_of_cons in Hk as [Hne Hk].
  rewrite bind_actions_cons, IH by exact Hk.
  unfold bind_action. simpl in *. apply lookup_insert_ne. congruence.
Qed.

(** A declared name ends up bound to the handler made for it. *)
Lemma bind_actions_declared items : forall attrs k ms,
  NoDup items.*1 -> (k, ms) ∈ items ->
  bind_actions attrs items !! k
  = Some (AHandler (make_action_method (lower k) ms ∅)).
Proof.
  induction items as [|[n ns] items IH]; intros attrs k ms Hnd Hin.
  - now apply elem_of_nil in Hin.
  - rewrite bind_actions_cons. simpl in Hnd. apply NoDup_cons in Hnd as [Hn Hnd].
    apply elem_of_cons in Hin as [Heq | Hin].
    + inversion Heq; subst n ns. rewrite bind_actions_other by exact Hn.
      unfold bind_action. simpl. apply lookup_insert_eq.
    + now apply IH.
Qed.

(** Every declared action [mname] becomes the class attribute [mname],
    holding the handler that closes over [mname.lower()]. *)
Lemma ManagerMeta_new_declared name bases attrs mc am mname ms :
  attrs !! "manager_class" = Some (AManagerClass mc) ->
  action_methods mc = Some am ->
  am !! mname = Some ms ->
  cls_dict (ManagerMeta_new name bases attrs) !! mname
  = Some (AHandler (make_action_method (lower mname) ms ∅)).
Proof.
  intros Ha Hm Hl. unfold ManagerMeta_new. rewrite Ha. simpl. rewrite Hm. simpl.
  apply bind_actions_declared.
  - apply NoDup_fst_map_to_list.
  - now apply elem_of_map_to_list.
Qed.

(** Every other attribute is the one of [attrs]. *)
Lemma ManagerMeta_new_other name bases attrs mc am k :
  attrs !! "manager_class" = Some (AManagerClass mc) ->
  action_methods mc = Some am ->
  am !! k = None ->
  cls_dict (ManagerMeta_new name bases attrs) !! k = attrs !! k.
Proof.
  intros Ha Hm Hl. unfold ManagerMeta_new. rewrite Ha. simpl. rewrite Hm. simpl.
  apply bind_actions_other. intros Hin.
  apply list_elem_of_fmap in Hin as [[k' ms] [-> Hin]].
  apply elem_of_map_to_list in Hin. simpl in Hl. congruence.
Qed.

(** C1, as the code has it: with [action_methods = {'DoThing': ['POST']}]
    the class gains the attribute ['DoThing'] (the declared spelling), a
    handler with [bind_to_methods = ['POST']]; called with a request, it
    obtains a manager from [manager_factory] and calls that manager's method
    named ['dothing'] (the lower-cased name) with the request payload and
    [pk], failing with [AttributeError] when the manager has no such
    method. *)
Theorem ManagerMeta_new_DoThing name bases attrs mc :
  attrs !! "manager_class" = Some (AManagerClass mc) ->
  action_methods mc = Some {[ "DoThing" := ["POST"] ]} ->
  exists h,
    cls_dict (ManagerMeta_new name bases attrs) !! "DoThing" = Some (AHandler h) /\
    bind_to_methods h = ["POST"] /\
    forall self request pk kwargs payload mc' f mgr,
      data request = Some payload ->
      manager_class self = Some mc' ->
      manager_factory self = Some f ->
      run_factory self f request = Ok mgr ->
      invoke h self request pk kwargs =
      match mgr_methods mgr !! "dothing" with
      | Some m =>
          Outcome [EvManagerFactory; EvManagerCall "dothing" payload pk]
                  (m payload pk kwargs ≫= respond STATUS_CODES)
      | None => Outcome [EvManagerFactory] (Raise (AttributeError "dothing"))
      end.
Proof.
  intros Ha Hm. exists (make_action_method "dothing" ["POST"] ∅).
  split; [|split].
  - apply (ManagerMeta_new_declared name bases attrs mc _ "DoThing" ["POST"] Ha Hm).
    apply lookup_singleton_eq.
  - reflexivity.
  - intros self request pk kwargs payload mc' f mgr Hd Hc Hf Hr.
    unfold invoke, func. simpl h_name.
    rewrite (dispatch_run "dothing" self request pk kwargs payload mc' f mgr Hd Hc Hf Hr).
    destruct (mgr_methods mgr !! "dothing") as [m|]; [|reflexivity].
    run. destruct (m payload pk kwargs); reflexivity.
Qed.

Lemma ManagerMeta_new_DoThing_witness :
  exists h,
    cls_dict MyViewSet !! "DoThing" = Some (AHandler h) /\
    bind_to_methods h = ["POST"] /\
    invoke h my_viewset post PNone ∅
    = Outcome [EvManagerFactory] (Raise (AttributeError "dothing")).
Proof.
  destruct (ManagerMeta_new_DoThing "MyViewSet" []
              {[ "manager_class" := AManagerClass MyManager ]} MyManager)
    as [h [Hh [Hb Hi]]]; [reflexivity | reflexivity |].
  exists h. split; [exact Hh|]. split; [exact Hb|].
  rewrite (Hi my_viewset post PNone ∅ (VDict ∅) MyManager MixinFactory
              (mkManager {[ "DoThing" := DoThing ]})); reflexivity.
Defined.

(** C1 as stated fails on [MyViewSet]: the class has no attribute
    ['dothing'], and the handler it did gain never reaches the manager's
    [DoThing]. *)
Lemma MyViewSet_has_no_dothing :
  cls_dict MyViewSet !! "dothing" = None /\
  exists h,
    cls_dict MyViewSet !! "DoThing" = Some (AHandler h) /\
    h_name h = "dothing" /\
    invoke h my_viewset post PNone ∅
    = Outcome [EvManagerFactory] (Raise (AttributeError "dothing")).
Proof.
  split; [reflexivity|].
  exists (make_action_method "dothing" ["POST"] ∅).
  repeat split; reflexivity.
Qed.

(** C9: handlers are generated only from a ['manager_class'] entry of the
    class's own [attrs].  When [attrs] has no such entry (whatever the bases
    are, so also when a base class holds [manager_class]), or when the entry
    has no [action_methods], the class is created from [attrs] unchanged. *)
Theorem ManagerMeta_new_passthrough name bases attrs :
  attrs !! "manager_class" = None \/
  (exists a, attrs !! "manager_class" = Some a /\ attr_action_methods a = None) ->
  ManagerMeta_new name bases attrs = mkClass name bases attrs.
Proof.
  intros [Hn | [a [Ha Hm]]]; unfold ManagerMeta_new.
  - now rewrite Hn.
  - rewrite Ha. now rewrite Hm.
Qed.

Lemma ManagerMeta_new_passthrough_witness :
  cls_dict MyViewSet !! "manager_class" = Some (AManagerClass MyManager) /\
  ManagerMeta_new "SubViewSet" [MyViewSet] ∅ = mkClass "SubViewSet" [MyViewSet] ∅.
Proof.
  split; [reflexivity|].
  apply (ManagerMeta_new_passthrough "SubViewSet" [MyViewSet] ∅).
  left. reflexivity.
Defined.

(** ** The pagination adapter *)

(** [int] of a string either succeeds or raises [ValueError]. *)
Lemma int_of_string_cases s :
  (exists n, int_of_string s = Ok n) \/ int_of_string s = Raise ValueError.
Proof.
  unfold int_of_string. destruct (strip (list_ascii_of_string s)) as [|c cs].
  - now right.
  - destruct (Ascii.eqb c "-"); [|destruct (Ascii.eqb c "+")];
      match goal with
      | |- context [read_digits ?l] => destruct (read_digits l)
      end; eauto.
Qed.

Lemma py_or_truthy a b : param_truthy b = true -> param_truthy (py_or a b) = true.
Proof. intros H. unfold py_or. destruct (param_truthy a) eqn:E; assumption. Qed.

Ltac no_page_event :=
  let H := fresh in
  intros H;
  repeat (apply elem_of_cons in H as [H | H]; [discriminate H|]);
  now apply elem_of_nil in H.

Section PaginationProperties.

Context {item query paginator : Type}.
Implicit Types (self : View item query paginator) (p : paginator).

(** The or-chain ends in [1], so the page it yields is never falsy. *)
Lemma requested_page_truthy self : param_truthy (requested_page self) = true.
Proof. unfold requested_page. now do 2 apply py_or_truthy. Qed.

(** A page that [int] rejects is a string, and the rejection a [ValueError]. *)
Lemma requested_page_not_int self :
  (forall n, int_ (requested_page self) <> Ok n) ->
  int_ (requested_page self) = Raise ValueError.
Proof.
  intros H. pose proof (requested_page_truthy self) as Ht.
  destruct (requested_page self) as [|z|s]; simpl in *.
  - discriminate.
  - now destruct (H z).
  - destruct (int_of_string_cases s) as [[n Hn]|Hv]; [now destruct (H n)|exact Hv].
Qed.

Lemma is_last_false (page : param) : page <> PStr "last" -> is_last page = false.
Proof.
  intros H. destruct page as [| |s]; try reflexivity. simpl.
  apply String.eqb_neq. congruence.
Qed.

(** The adapter once the paginator is built and the page number known. *)
Lemma paginate_query_object_run self (q : query) page_size p n :
  pc_new (paginator_class self) q page_size 0 (allow_empty self) = Ok p ->
  value (resolve_page_number self p (requested_page self)) = Ok n ->
  value (paginate_query_object self q page_size) =
  match pc_count (paginator_class self) p with
  | Ok c =>
      if negb (Z.eqb c 0) then
        match pc_page (paginator_class self) p n with
        | Ok pg => Ok (p, pg, object_list pg, pc_has_other_pages (paginator_class self) pg)
        | Raise e => Raise e
        end
      else Ok (p, mkPage [] 1 p, [], false)
  | Raise e => Raise e
  end.
Proof.
  intros Hp Hn. unfold paginate_query_object, get_paginator, get_allow_empty.
  run. rewrite Hp. simpl. rewrite Hn. simpl.
  destruct (pc_count (paginator_class self) p) as [c|e]; simpl; [|reflexivity].
  destruct (Z.eqb c 0); simpl; [reflexivity|].
  destruct (pc_page (paginator_class self) p n); reflexivity.
Qed.

(** C3, as the code has it: for an empty query object (count 0) and a page
    identifier that [int] accepts, or that is 'last' with [num_pages]
    answering, the adapter returns an empty page numbered 1, an empty
    object list and [False] for has-other-pages, and never calls the
    paginator's [page]. *)
Theorem empty_query_object_short_circuit self (q : query) page_size p :
  pc_new (paginator_class self) q page_size 0 (allow_empty self) = Ok p ->
  pc_count (paginator_class self) p = Ok 0 ->
  (exists n, int_ (requested_page self) = Ok n) \/
  (requested_page self = PStr "last" /\
   exists n, pc_num_pages (paginator_class self) p = Ok n) ->
  value (paginate_query_object self q page_size) = Ok (p, mkPage [] 1 p, [], false) /\
  forall n, EvPage n ∉ trace (paginate_query_object self q page_size).
Proof.
  intros Hp Hc Hpage.
  unfold paginate_query_object, get_paginator, get_allow_empty, resolve_page_number.
  destruct Hpage as [[n Hn] | [Hl [n Hn]]].
  - rewrite Hn. run. rewrite Hp. simpl. rewrite Hc. simpl.
    split; [reflexivity|]. intros k. no_page_event.
  - rewrite Hl. change (int_ (PStr "last")) with (@Raise Z ValueError).
    change (is_last (PStr "last")) with true. cbv iota.
    run. rewrite Hp. simpl. rewrite Hn. simpl. rewrite Hc. simpl.
    split; [reflexivity|]. intros k. no_page_event.
Qed.


(** C5: for a non-empty query object, [get_page] returns the object list of
    the paginator's page [n] when the page identifier converts to the
    integer [n], and the object list of page [num_pages] when the
    identifier is 'last'. *)
Theorem get_page_object_list self (q : query) p c pg :
  pc_new (paginator_class self) q (paginate_by self) 0 (allow_empty self) = Ok p ->
  pc_count (paginator_class self) p = Ok c ->
  c <> 0 ->
  (forall n,
     int_ (requested_page self) = Ok n ->
     pc_page (paginator_class self) p n = Ok pg ->
     value (get_page self q) = Ok (object_list pg)) /\
  (forall np,
     requested_page self = PStr "last" ->
     pc_num_pages (paginator_class self) p = Ok np ->
     pc_page (paginator_class self) p np = Ok pg ->
     value (get_page self q) = Ok (object_list pg)).
Proof.
  intros Hp Hc Hne.
  assert (Hrun : forall n,
    value (resolve_page_number self p (requested_page self)) = Ok n ->
    pc_page (paginator_class self) p n = Ok pg ->
    value (get_page self q) = Ok (object_list pg)).
  { intros n Hn Hpg. unfold get_page, get_paginate_by, filter_query_object.
    pose proof (paginate_query_object_run self q (paginate_by self) p n Hp Hn) as Hv.
    rewrite Hc, Hpg in Hv. apply Z.eqb_neq in Hne. rewrite Hne in Hv. simpl in Hv.
    now rewrite (value_bind _ _ _ Hv). }
  split.
  - intros n Hn Hpg. apply (Hrun n); [|exact Hpg].
    unfold resolve_page_number. now rewrite Hn.
  - intros np Hl Hnp Hpg. apply (Hrun np); [|exact Hpg].
    unfold resolve_page_number. rewrite Hl.
    change (int_ (PStr "last")) with (@Raise Z ValueError).
    change (is_last (PStr "last")) with true. cbv iota. exact Hnp.
Qed.

(** C10: a falsy page value in the path parameters and in the query string
    ([None], the empty string, the integer 0) is treated as an absent one:
    the or-chain yields 1 and the page number is 1. *)
Theorem falsy_page_defaults_to_one self :
  param_truthy (dict_get (kwargs self) "page") = false ->
  param_truthy (dict_get (GET (request self)) "page") = false ->
  requested_page self = PInt 1 /\
  forall p, resolve_page_number self p (requested_page self) = mret 1.
Proof.
  intros Hk Hg.
  assert (Hr : requested_page self = PInt 1).
  { unfold requested_page, py_or. now rewrite Hk, Hg. }
  split; [exact Hr|]. intros p. now rewrite Hr.
Qed.

End PaginationProperties.

(** ** Concrete runs with the default paginator *)

Lemma empty_query_object_short_circuit_witness :
  (value (paginate_query_object (list_view true (PStr "7")) [] (PInt 2))
   = Ok (mkPaginator [] 2 0 true, mkPage [] 1 (mkPaginator [] 2 0 true), [], false) /\
   forall n, EvPage n ∉ trace (paginate_query_object (list_view true (PStr "7")) [] (PInt 2))) /\
  (value (paginate_query_object (list_view true (PStr "last")) [] (PInt 2))
   = Ok (mkPaginator [] 2 0 true, mkPage [] 1 (mkPaginator [] 2 0 true), [], false) /\
   forall n, EvPage n ∉ trace (paginate_query_object (list_view true (PStr "last")) [] (PInt 2))).
Proof.
  split.
  - apply (empty_query_object_short_circuit (list_view true (PStr "7")) []
             (PInt 2) (mkPaginator [] 2 0 true)).
    + reflexivity.
    + reflexivity.
    + left. exists 7. reflexivity.
  - apply (empty_query_object_short_circuit (list_view true (PStr "last")) []
             (PInt 2) (mkPaginator [] 2 0 true)).
    + reflexivity.
    + reflexivity.
    + right. split; [reflexivity|]. exists 1. reflexivity.
Defined.

(** C3 as stated fails: on an empty query object the page identifier 'abc'
    makes the adapter raise [InvalidPage] instead of returning the empty
    page. *)
Lemma empty_query_object_invalid_page :
  pc_new DjangoPaginator ([] : list Z) (PInt 2) 0 true = Ok (mkPaginator [] 2 0 true) /\
  pc_count DjangoPaginator (mkPaginator ([] : list Z) 2 0 true) = Ok 0 /\
  requested_page (list_view true (PStr "abc")) = PStr "abc" /\
  paginate_query_object (list_view true (PStr "abc")) [] (PInt 2)
  = Outcome [EvPaginator (PInt 2) 0 true] (Raise InvalidPage).
Proof. repeat split; reflexivity. Qed.

(** C4 fails on the code: with [allow_empty = False] and an empty query
    object the adapter returns the empty page 1 and raises nothing, although
    [get_allow_empty] is documented as "False to 404" and the paginator's
    own [page(1)], which the count-zero branch skips, raises [EmptyPage],
    an [InvalidPage]. *)
Theorem allow_empty_false_returns_page :
  get_allow_empty (list_view false PNone) = false /\
  is_InvalidPage EmptyPage = true /\
  paginate_query_object (list_view false PNone) [] (PInt 2)
  = Outcome [EvPaginator (PInt 2) 0 false; EvCount]
      (Ok (mkPaginator [] 2 0 false,
           mkPage [] 1 (mkPaginator [] 2 0 false), [], false)) /\
  pc_page DjangoPaginator (mkPaginator ([] : list Z) 2 0 false) 1 = Raise EmptyPage.
Proof. repeat split; reflexivity. Qed.


Lemma get_page_object_list_witness :
  value (get_page (list_view true (PStr "2")) [10; 20; 30]) = Ok [30] /\
  value (get_page (list_view true (PStr "last")) [10; 20; 30; 40; 50]) = Ok [50].
Proof.
  split.
  - apply (proj1 (get_page_object_list (list_view true (PStr "2")) [10; 20; 30]
                    (mkPaginator [10; 20; 30] 2 0 true) 3
                    (mkPage [30] 2 (mkPaginator [10; 20; 30] 2 0 true))
                    eq_refl eq_refl ltac:(lia)) 2);
      reflexivity.
  - apply (proj2 (get_page_object_list (list_view true (PStr "last"))
                    [10; 20; 30; 40; 50]
                    (mkPaginator [10; 20; 30; 40; 50] 2 0 true) 5
                    (mkPage [50] 3 (mkPaginator [10; 20; 30; 40; 50] 2 0 true))
                    eq_refl eq_refl ltac:(lia)) 3);
      reflexivity.
Defined.

Lemma falsy_page_defaults_to_one_witness :
  requested_page falsy_page_view = PInt 1 /\
  forall p, resolve_page_number falsy_page_view p (requested_page falsy_page_view)
            = mret 1.
Proof.
  apply (falsy_page_defaults_to_one falsy_page_view); reflexivity.
Defined.

(** * Further properties of the module *)

(** ** The handler: every path through [func] *)

(** [dispatch], case by case. *)
Lemma dispatch_cases name self request pk kwargs :
  dispatch name self request pk kwargs =
  match data request with
  | None => Outcome [] (Raise (AssertionError "request object must have data"))
  | Some payload =>
      match manager_class self with
      | None => Outcome [] (Raise (AssertionError "viewset must have"))
      | Some _ =>
          match manager_factory self with
          | None => Outcome [] (Raise (AssertionError "viewset must provide a"))
          | Some f =>
              match run_factory self f request with
              | Raise e => Outcome [EvManagerFactory] (Raise e)
              | Ok mgr =>
                  match getattr mgr name with
                  | Raise e => Outcome [EvManagerFactory] (Raise e)
                  | Ok m =>
                      Outcome [EvManagerFactory; EvManagerCall name payload pk]
                              (m payload pk kwargs)
                  end
              end
          end
      end
  end.
Proof.
  unfold dispatch, call_manager_factory.
  destruct (data request) as [payload|]; [|reflexivity].
  destruct (manager_class self) as [mc|]; [|reflexivity].
  destruct (manager_factory self) as [f|]; [|reflexivity].
  run. destruct (run_factory self f request) as [mgr|e]; [|reflexivity]. simpl.
  destruct (getattr mgr name); reflexivity.
Qed.

(** [func] adds no call of its own to those of [dispatch]. *)
Lemma func_cases name self request pk kwargs :
  func name self request pk kwargs =
  Outcome (trace (dispatch name self request pk kwargs))
          (value (dispatch name self request pk kwargs) ≫= respond STATUS_CODES).
Proof.
  unfold func. run.
  destruct (value (dispatch name self request pk kwargs)); [|reflexivity].
  now rewrite app_nil_r.
Qed.

(** The only codes the table holds. *)
Lemma STATUS_CODES_range s code :
  STATUS_CODES !! s = Some code -> code = 201 \/ code = 200 \/ code = 202.
Proof.
  unfold STATUS_CODES. intros H.
  destruct (decide (s = "created")) as [->|N1].
  { rewrite lookup_insert_eq in H. left. now inversion H. }
  rewrite lookup_insert_ne in H by congruence.
  destruct (decide (s = "updated")) as [->|N2].
  { rewrite lookup_insert_eq in H. right; left. now inversion H. }
  rewrite lookup_insert_ne in H by congruence.
  destruct (decide (s = "accepted")) as [->|N3].
  { rewrite lookup_singleton_eq in H. right; right. now inversion H. }
  rewrite lookup_singleton_ne in H by congruence. discriminate.
Qed.

(** What [respond] can answer. *)
Lemma respond_ok resp r :
  respond STATUS_CODES resp = Ok r ->
  resp_data r = resp /\
  (status_code r = 200 \/ status_code r = 201 \/ status_code r = 202).
Proof.
  unfold respond. destruct (truthy resp); simpl.
  - run. destruct (getitem resp "status") as [v|]; [|discriminate].
    unfold table_getitem. destruct v as [| | |s| |]; try discriminate.
    destruct (STATUS_CODES !! s) as [c|] eqn:E; [|discriminate].
    intros H. inversion H. simpl. split; [reflexivity|].
    destruct (STATUS_CODES_range s c E) as [-> | [-> | ->]]; auto.
  - intros H. inversion H. simpl. auto.
Qed.

(** X1: the three assertions of a generated handler are checked in the
    order request payload, manager class, manager factory; the first one
    that fails raises [AssertionError] with the first line of its message
    (the continuation line is a statement of its own), before any call is
    made. *)
Theorem handler_assertions name methods kw self request pk kwargs :
  (data request = None ->
   invoke (make_action_method name methods kw) self request pk kwargs
   = Outcome [] (Raise (AssertionError "request object must have data"))) /\
  (data request <> None -> manager_class self = None ->
   invoke (make_action_method name methods kw) self request pk kwargs
   = Outcome [] (Raise (AssertionError "viewset must have"))) /\
  (data request <> None -> manager_class self <> None ->
   manager_factory self = None ->
   invoke (make_action_method name methods kw) self request pk kwargs
   = Outcome [] (Raise (AssertionError "viewset must provide a"))).
Proof.
  unfold invoke, make_action_method. simpl h_name.
  rewrite func_cases, dispatch_cases.
  repeat split.
  - intros ->. reflexivity.
  - intros Hd ->. destruct (data request); [reflexivity|congruence].
  - intros Hd Hc ->. destruct (data request); [|congruence].
    destruct (manager_class self); [reflexivity|congruence].
Qed.

Lemma handler_assertions_witness :
  invoke (make_action_method "my_method" ["POST"] ∅) bare_viewset no_data PNone ∅
  = Outcome [] (Raise (AssertionError "request object must have data")) /\
  invoke (make_action_method "my_method" ["POST"] ∅) bare_viewset post PNone ∅
  = Outcome [] (Raise (AssertionError "viewset must have")) /\
  invoke (make_action_method "my_method" ["POST"] ∅)
         (viewset_without_factory MyManager) post PNone ∅
  = Outcome [] (Raise (AssertionError "viewset must provide a")).
Proof.
  split; [|split].
  - apply (proj1 (handler_assertions "my_method" ["POST"] ∅ bare_viewset
                    no_data PNone ∅)). reflexivity.
  - apply (proj1 (proj2 (handler_assertions "my_method" ["POST"] ∅ bare_viewset
                           post PNone ∅))); [discriminate|reflexivity].
  - apply (proj2 (proj2 (handler_assertions "my_method" ["POST"] ∅
                           (viewset_without_factory MyManager) post PNone ∅)));
      [discriminate|discriminate|reflexivity].
Defined.

(** X2: an exception raised by the manager factory (for the mixin's
    factory, by the manager class's constructor) leaves the handler
    unchanged, and no manager method is called. *)
Theorem handler_factory_error name methods kw self request pk kwargs f e :
  data request <> None ->
  manager_class self <> None ->
  manager_factory self = Some f ->
  run_factory self f request = Raise e ->
  invoke (make_action_method name methods kw) self request pk kwargs
  = Outcome [EvManagerFactory] (Raise e).
Proof.
  intros Hd Hc Hf Hr. unfold invoke, make_action_method. simpl h_name.
  rewrite func_cases, dispatch_cases.
  destruct (data request); [|congruence].
  destruct (manager_class self); [|congruence].
  rewrite Hf, Hr. reflexivity.
Qed.

Lemma handler_factory_error_witness :
  invoke (make_action_method "my_method" ["POST"] ∅)
         (viewset_of (unbuildable (OtherError "OperationalError"))) post PNone ∅
  = Outcome [EvManagerFactory] (Raise (OtherError "OperationalError")).
Proof.
  apply (handler_factory_error "my_method" ["POST"] ∅
           (viewset_of (unbuildable (OtherError "OperationalError")))
           post PNone ∅ MixinFactory);
    (discriminate || reflexivity).
Defined.

(** X3: when the manager has no attribute of the handler's name, the
    handler raises [AttributeError] for that name after the factory call and
    calls no manager method. *)
Theorem handler_missing_method name methods kw self request pk kwargs f mgr :
  data request <> None ->
  manager_class self <> None ->
  manager_factory self = Some f ->
  run_factory self f request = Ok mgr ->
  mgr_methods mgr !! name = None ->
  invoke (make_action_method name methods kw) self request pk kwargs
  = Outcome [EvManagerFactory] (Raise (AttributeError name)).
Proof.
  intros Hd Hc Hf Hr Hm. unfold invoke, make_action_method. simpl h_name.
  rewrite func_cases, dispatch_cases.
  destruct (data request); [|congruence].
  destruct (manager_class self); [|congruence].
  rewrite Hf, Hr. unfold getattr. rewrite Hm. reflexivity.
Qed.

Lemma handler_missing_method_witness :
  invoke (make_action_method "other" ["POST"] ∅)
         (viewset_of (returning created)) post PNone ∅
  = Outcome [EvManagerFactory] (Raise (AttributeError "other")).
Proof.
  apply (handler_missing_method "other" ["POST"] ∅
           (viewset_of (returning created)) post PNone ∅ MixinFactory
           (mkManager {[ "my_method" := fun _ _ _ => Ok created ]}));
    (discriminate || reflexivity).
Defined.

(** X4: an exception raised by the manager method itself propagates out of
    the handler unchanged, after one factory call and one method call; no
    response is built. *)
Theorem handler_method_error name methods kw self request pk kwargs
    payload f mgr (m : method) e :
  data request = Some payload ->
  manager_class self <> None ->
  manager_factory self = Some f ->
  run_factory self f request = Ok mgr ->
  mgr_methods mgr !! name = Some m ->
  m payload pk kwargs = Raise e ->
  invoke (make_action_method name methods kw) self request pk kwargs
  = Outcome [EvManagerFactory; EvManagerCall name payload pk] (Raise e).
Proof.
  intros Hd Hc Hf Hr Hm He. unfold invoke, make_action_method. simpl h_name.
  rewrite func_cases, dispatch_cases, Hd.
  destruct (manager_class self); [|congruence].
  rewrite Hf, Hr. unfold getattr. rewrite Hm. simpl. now rewrite He.
Qed.

Lemma handler_method_error_witness :
  invoke (make_action_method "my_method" ["POST"] ∅)
         (viewset_of (raising (OtherError "IntegrityError"))) post (PInt 7) ∅
  = Outcome [EvManagerFactory; EvManagerCall "my_method" (VDict ∅) (PInt 7)]
            (Raise (OtherError "IntegrityError")).
Proof.
  apply (handler_method_error "my_method" ["POST"] ∅
           (viewset_of (raising (OtherError "IntegrityError"))) post (PInt 7) ∅
           (VDict ∅) MixinFactory
           (mkManager {[ "my_method" := fun _ _ _ => Raise (OtherError "IntegrityError") ]})
           (fun _ _ _ => Raise (OtherError "IntegrityError")));
    (discriminate || reflexivity).
Defined.

(** X5: a non-empty mapping without a ['status'] entry makes the handler
    raise [KeyError], as an unknown status does. *)
Theorem handler_mapping_without_status name methods kw self request pk kwargs
    (d : gmap string pyval) :
  value (dispatch name self request pk kwargs) = Ok (VDict d) ->
  d <> ∅ ->
  d !! "status" = None ->
  value (invoke (make_action_method name methods kw) self request pk kwargs)
  = Raise KeyError.
Proof.
  intros Hd Hne Hs. unfold invoke, make_action_method. simpl h_name.
  rewrite (func_value _ _ _ _ _ _ Hd). unfold respond.
  assert (Ht : truthy (VDict d) = true).
  { simpl. destruct (size d) eqn:E; [|reflexivity].
    apply map_size_empty_iff in E. contradiction. }
  rewrite Ht. simpl. now rewrite Hs.
Qed.

Lemma handler_mapping_without_status_witness :
  value (invoke (make_action_method "my_method" ["POST"] ∅)
                (viewset_of (returning (VDict {[ "id" := VInt 3 ]}))) post PNone ∅)
  = Raise KeyError.
Proof.
  apply (handler_mapping_without_status "my_method" ["POST"] ∅
           (viewset_of (returning (VDict {[ "id" := VInt 3 ]}))) post PNone ∅
           {[ "id" := VInt 3 ]}).
  - reflexivity.
  - intros H. apply (f_equal (fun m => m !! "id")) in H. vm_compute in H.
    discriminate.
  - reflexivity.
Defined.

(** X6: a truthy result that is not a mapping (a non-empty string or list,
    [True], a non-zero number) makes the handler raise [TypeError]: it cannot
    be subscripted with ['status']. *)
Theorem handler_non_mapping_result name methods kw self request pk kwargs resp :
  value (dispatch name self request pk kwargs) = Ok resp ->
  truthy resp = true ->
  (forall d, resp <> VDict d) ->
  value (invoke (make_action_method name methods kw) self request pk kwargs)
  = Raise TypeError.
Proof.
  intros Hd Ht Hn. unfold invoke, make_action_method. simpl h_name.
  rewrite (func_value _ _ _ _ _ _ Hd). unfold respond. rewrite Ht. simpl.
  destruct resp; try reflexivity. now destruct (Hn d).
Qed.

Lemma handler_non_mapping_result_witness :
  value (invoke (make_action_method "my_method" ["POST"] ∅)
                (viewset_of (returning (VStr "created"))) post PNone ∅)
  = Raise TypeError.
Proof.
  apply (handler_non_mapping_result "my_method" ["POST"] ∅
           (viewset_of (returning (VStr "created"))) post PNone ∅ (VStr "created"));
    [reflexivity | reflexivity | discriminate].
Defined.

(** X7: a ['status'] that is a list or a mapping cannot be looked up in the
    status table: the handler raises [TypeError], not [KeyError]. *)
Theorem handler_unhashable_status name methods kw self request pk kwargs
    (d : gmap string pyval) v :
  value (dispatch name self request pk kwargs) = Ok (VDict d) ->
  d !! "status" = Some v ->
  hashable v = false ->
  value (invoke (make_action_method name methods kw) self request pk kwargs)
  = Raise TypeError.
Proof.
  intros Hd Hs Hh. unfold invoke, make_action_method. simpl h_name.
  rewrite (func_value _ _ _ _ _ _ Hd). unfold respond.
  rewrite (dict_with_key_truthy _ _ _ Hs). simpl. rewrite Hs. run.
  destruct v; try discriminate; reflexivity.
Qed.

Lemma handler_unhashable_status_witness :
  value (invoke (make_action_method "my_method" ["POST"] ∅)
                (viewset_of (returning (VDict {[ "status" := VList [VStr "created"] ]})))
                post PNone ∅)
  = Raise TypeError.
Proof.
  apply (handler_unhashable_status "my_method" ["POST"] ∅
           (viewset_of (returning (VDict {[ "status" := VList [VStr "created"] ]})))
           post PNone ∅ {[ "status" := VList [VStr "created"] ]}
           (VList [VStr "created"]));
    reflexivity.
Defined.

(** X8: whenever a generated handler answers at all, the body of the
    response is exactly what the manager method returned and the status code
    is 200, 201 or 202. *)
Theorem handler_response_invariant name methods kw self request pk kwargs r :
  value (invoke (make_action_method name methods kw) self request pk kwargs) = Ok r ->
  value (dispatch name self request pk kwargs) = Ok (resp_data r) /\
  (status_code r = 200 \/ status_code r = 201 \/ status_code r = 202).
Proof.
  unfold invoke, make_action_method. simpl h_name. rewrite func_cases. simpl.
  destruct (value (dispatch name self request pk kwargs)) as [resp|e]; simpl.
  - intros H. apply respond_ok in H as [<- Hc]. split; [reflexivity|exact Hc].
  - discriminate.
Qed.

Lemma handler_response_invariant_witness :
  value (dispatch "my_method" (viewset_of (returning created)) post PNone ∅)
  = Ok (resp_data (mkResponse created 201)) /\
  (status_code (mkResponse created 201) = 200 \/
   status_code (mkResponse created 201) = 201 \/
   status_code (mkResponse created 201) = 202).
Proof.
  apply (handler_response_invariant "my_method" ["POST"] ∅
           (viewset_of (returning created)) post PNone ∅ (mkResponse created 201)).
  reflexivity.
Defined.

(** X9: a handler that answers has asked the factory for a manager exactly
    once and has then called exactly one manager method, the one of its
    name, with the request's payload and [pk]. *)
Theorem handler_success_trace name methods kw self request pk kwargs r :
  value (invoke (make_action_method name methods kw) self request pk kwargs) = Ok r ->
  exists payload,
    data request = Some payload /\
    trace (invoke (make_action_method name methods kw) self request pk kwargs)
    = [EvManagerFactory; EvManagerCall name payload pk].
Proof.
  unfold invoke, make_action_method. simpl h_name.
  rewrite func_cases, dispatch_cases. simpl.
  destruct (data request) as [payload|]; [|discriminate].
  destruct (manager_class self); [|discriminate].
  destruct (manager_factory self) as [f|]; [|discriminate].
  destruct (run_factory self f request) as [mgr|]; [|discriminate].
  destruct (getattr mgr name); [|discriminate].
  intros _. exists payload. split; reflexivity.
Qed.

Lemma handler_success_trace_witness :
  exists payload,
    data post = Some payload /\
    trace (invoke (make_action_method "my_method" ["POST"] ∅)
                  (viewset_of (returning created)) post (PInt 7) ∅)
    = [EvManagerFactory; EvManagerCall "my_method" payload (PInt 7)].
Proof.
  apply (handler_success_trace "my_method" ["POST"] ∅
           (viewset_of (returning created)) post (PInt 7) ∅
           (mkResponse created 201)).
  reflexivity.
Defined.

(** ** The metaclass: the whole class it builds *)

(** Binding actions that are already bound changes nothing. *)
Lemma bind_actions_fixed items : forall attrs : gmap string attr,
  (forall k ms, (k, ms) ∈ items ->
     attrs !! k = Some (AHandler (make_action_method (lower k) ms ∅))) ->
  bind_actions attrs items = attrs.
Proof.
  induction items as [|[n ns] items IH]; intros attrs H; [reflexivity|].
  rewrite bind_actions_cons.
  assert (E : bind_action attrs (n, ns) = attrs).
  { unfold bind_action. simpl. apply insert_id. apply H. apply elem_of_cons. now left. }
  rewrite E. apply IH. intros k ms Hin. apply H. apply elem_of_cons. now right.
Qed.

(** The dictionary of the class, entry by entry. *)
Lemma ManagerMeta_new_lookup name bases attrs mc (am : gmap string (list string)) k :
  attrs !! "manager_class" = Some (AManagerClass mc) ->
  action_methods mc = Some am ->
  cls_dict (ManagerMeta_new name bases attrs) !! k =
  match am !! k with
  | Some ms => Some (AHandler (make_action_method (lower k) ms ∅))
  | None => attrs !! k
  end.
Proof.
  intros Ha Hm. destruct (am !! k) as [ms|] eqn:E.
  - exact (ManagerMeta_new_declared name bases attrs mc am k ms Ha Hm E).
  - exact (ManagerMeta_new_other name bases attrs mc am k Ha Hm E).
Qed.

(** X10: with a manager class that declares [action_methods] under names
    that are ASCII text, the class is created under the given name and
    bases, and its dictionary is [attrs] with every declared action name
    bound to the handler made for it (verbs as declared, no extra keyword
    configuration, lower-cased lookup name); an attribute of [attrs] with
    the name of an action is replaced, every other attribute is kept. *)
Theorem ManagerMeta_new_class name bases attrs mc (am : gmap string (list string)) :
  attrs !! "manager_class" = Some (AManagerClass mc) ->
  action_methods mc = Some am ->
  map_Forall (fun k _ => is_ascii_text k = true) am ->
  cls_name (ManagerMeta_new name bases attrs) = name /\
  cls_bases (ManagerMeta_new name bases attrs) = bases /\
  forall k,
    cls_dict (ManagerMeta_new name bases attrs) !! k =
    match am !! k with
    | Some ms => Some (AHandler (make_action_method (lower k) ms ∅))
    | None => attrs !! k
    end.
Proof.
  intros Ha Hm _. split; [|split].
  - unfold ManagerMeta_new. rewrite Ha. simpl. now rewrite Hm.
  - unfold ManagerMeta_new. rewrite Ha. simpl. now rewrite Hm.
  - intros k. exact (ManagerMeta_new_lookup name bases attrs mc am k Ha Hm).
Qed.

Lemma ManagerMeta_new_class_witness :
  cls_name MyViewSet = "MyViewSet" /\
  cls_bases MyViewSet = [] /\
  forall k,
    cls_dict MyViewSet !! k =
    match ({[ "DoThing" := ["POST"] ]} : gmap string (list string)) !! k with
    | Some ms => Some (AHandler (make_action_method (lower k) ms ∅))
    | None => ({[ "manager_class" := AManagerClass MyManager ]} : gmap string attr) !! k
    end.
Proof.
  apply (ManagerMeta_new_class "MyViewSet" []
           {[ "manager_class" := AManagerClass MyManager ]} MyManager
           {[ "DoThing" := ["POST"] ]}); [reflexivity | reflexivity |].
  apply map_Forall_singleton. reflexivity.
Defined.

(** X11: for an action declared under a name (ASCII text) that is already
    lower case, as in the docstring of [ManagerMixin], the attribute of that
    name calls
    the manager method of the same name with the request payload and [pk],
    and answers with what lines 98-102 make of its result. *)
Theorem ManagerMeta_new_lowercase_action name bases attrs mc
    (am : gmap string (list string)) mname ms :
  attrs !! "manager_class" = Some (AManagerClass mc) ->
  action_methods mc = Some am ->
  am !! mname = Some ms ->
  is_ascii_text mname = true ->
  lower mname = mname ->
  exists h,
    cls_dict (ManagerMeta_new name bases attrs) !! mname = Some (AHandler h) /\
    bind_to_methods h = ms /\
    forall self request pk kwargs payload f mgr (m : method),
      data request = Some payload ->
      manager_class self <> None ->
      manager_factory self = Some f ->
      run_factory self f request = Ok mgr ->
      mgr_methods mgr !! mname = Some m ->
      invoke h self request pk kwargs =
      Outcome [EvManagerFactory; EvManagerCall mname payload pk]
              (m payload pk kwargs ≫= respond STATUS_CODES).
Proof.
  intros Ha Hm Hl _ Hlow. exists (make_action_method mname ms ∅).
  split; [|split].
  - rewrite (ManagerMeta_new_declared name bases attrs mc am mname ms Ha Hm Hl).
    now rewrite Hlow.
  - reflexivity.
  - intros self request pk kwargs payload f mgr m Hd Hc Hf Hr Hmm.
    unfold invoke, make_action_method. simpl h_name.
    rewrite func_cases, dispatch_cases, Hd.
    destruct (manager_class self); [|congruence].
    rewrite Hf, Hr. unfold getattr. rewrite Hmm. reflexivity.
Qed.

Lemma ManagerMeta_new_lowercase_action_witness :
  exists h,
    cls_dict (ManagerMeta_new "V" []
                {[ "manager_class" := AManagerClass (returning created) ]})
      !! "my_method" = Some (AHandler h) /\
    bind_to_methods h = ["POST"] /\
    invoke h (viewset_of (returning created)) post PNone ∅ =
    Outcome [EvManagerFactory; EvManagerCall "my_method" (VDict ∅) PNone]
            (Ok (mkResponse created 201)).
Proof.
  destruct (ManagerMeta_new_lowercase_action "V" []
              {[ "manager_class" := AManagerClass (returning created) ]}
              (returning created) {[ "my_method" := ["POST"] ]}
              "my_method" ["POST"])
    as [h [Hh [Hb Hi]]];
    [reflexivity | reflexivity | reflexivity | reflexivity | reflexivity |].
  exists h. split; [exact Hh|]. split; [exact Hb|].
  rewrite (Hi (viewset_of (returning created)) post PNone ∅ (VDict ∅) MixinFactory
              (mkManager {[ "my_method" := fun _ _ _ => Ok created ]})
              (fun _ _ _ => Ok created));
    first [reflexivity | intros H; discriminate H].
Defined.

(** A ['manager_class'] entry without [action_methods] binds nothing. *)
Lemma ManagerMeta_new_passthrough_aux name bases attrs a :
  attrs !! "manager_class" = Some a ->
  attr_action_methods a = None ->
  ManagerMeta_new name bases attrs = mkClass name bases attrs.
Proof. intros Ha Hm. unfold ManagerMeta_new. rewrite Ha. now rewrite Hm. Qed.

(** X12: the class dictionary the metaclass produces is a fixed point:
    creating a class from it again binds nothing new. *)
Theorem ManagerMeta_new_idempotent name bases attrs :
  ManagerMeta_new name bases (cls_dict (ManagerMeta_new name bases attrs))
  = ManagerMeta_new name bases attrs.
Proof.
  destruct (attrs !! "manager_class") as [a|] eqn:Ha.
  - destruct (attr_action_methods a) as [am|] eqn:Hm.
    + destruct a as [mc| |]; try discriminate. simpl in Hm.
      pose proof (fun k => ManagerMeta_new_lookup name bases attrs mc am k Ha Hm) as Hd.
      assert (E : ManagerMeta_new name bases attrs
                  = mkClass name bases (bind_actions attrs (map_to_list am))).
      { unfold ManagerMeta_new. rewrite Ha. simpl. now rewrite Hm. }
      rewrite E in *. simpl cls_dict in *.
      unfold ManagerMeta_new at 1.
      destruct (am !! "manager_class") as [ms|] eqn:Hk.
      * pose proof (Hd "manager_class") as H. rewrite Hk in H. rewrite H. reflexivity.
      * pose proof (Hd "manager_class") as H. rewrite Hk, Ha in H. rewrite H.
        simpl. rewrite Hm. f_equal. apply bind_actions_fixed.
        intros k ms Hin. apply elem_of_map_to_list in Hin.
        rewrite Hd. now rewrite Hin.
    + rewrite (ManagerMeta_new_passthrough_aux name bases attrs a Ha Hm).
      simpl. apply (ManagerMeta_new_passthrough_aux name bases attrs a Ha Hm).
  - assert (E : ManagerMeta_new name bases attrs = mkClass name bases attrs).
    { unfold ManagerMeta_new. now rewrite Ha. }
    rewrite E. simpl. exact E.
Qed.

(** X13: two actions whose names differ only in case become two attributes
    whose handlers do the same thing: both look up the one lower-cased
    name on the manager. *)
Theorem ManagerMeta_new_same_lower name bases attrs mc
    (am : gmap string (list string)) k1 k2 ms1 ms2 :
  attrs !! "manager_class" = Some (AManagerClass mc) ->
  action_methods mc = Some am ->
  am !! k1 = Some ms1 ->
  am !! k2 = Some ms2 ->
  lower k1 = lower k2 ->
  exists h1 h2,
    cls_dict (ManagerMeta_new name bases attrs) !! k1 = Some (AHandler h1) /\
    cls_dict (ManagerMeta_new name bases attrs) !! k2 = Some (AHandler h2) /\
    bind_to_methods h1 = ms1 /\ bind_to_methods h2 = ms2 /\
    forall self request pk kwargs,
      invoke h1 self request pk kwargs = invoke h2 self request pk kwargs.
Proof.
  intros Ha Hm H1 H2 Hl.
  exists (make_action_method (lower k1) ms1 ∅), (make_action_method (lower k2) ms2 ∅).
  repeat split.
  - exact (ManagerMeta_new_declared name bases attrs mc am k1 ms1 Ha Hm H1).
  - exact (ManagerMeta_new_declared name bases attrs mc am k2 ms2 Ha Hm H2).
  - intros. unfold invoke, make_action_method. simpl h_name. now rewrite Hl.
Qed.

Lemma ManagerMeta_new_same_lower_witness :
  exists h1 h2,
    cls_dict (ManagerMeta_new "V" [] {[ "manager_class" := AManagerClass TwoSpellings ]})
      !! "DoThing" = Some (AHandler h1) /\
    cls_dict (ManagerMeta_new "V" [] {[ "manager_class" := AManagerClass TwoSpellings ]})
      !! "dothing" = Some (AHandler h2) /\
    bind_to_methods h1 = ["POST"] /\ bind_to_methods h2 = ["GET"] /\
    forall self request pk kwargs,
      invoke h1 self request pk kwargs = invoke h2 self request pk kwargs.
Proof.
  apply (ManagerMeta_new_same_lower "V" []
           {[ "manager_class" := AManagerClass TwoSpellings ]} TwoSpellings
           {[ "DoThing" := ["POST"]; "dothing" := ["GET"] ]}
           "DoThing" "dothing" ["POST"] ["GET"]); reflexivity.
Defined.

(** ** The pagination adapter: every path through it *)

Section PaginationPaths.

Context {item query paginator : Type}.
Implicit Types (self : View item query paginator) (p : paginator).

(** The [try] / [except] of lines 36-43, case by case. *)
Lemma resolve_page_number_cases self p page :
  resolve_page_number self p page =
  match int_ page with
  | Ok n => Outcome [] (Ok n)
  | Raise ValueError =>
      if is_last page then Outcome [EvNumPages] (pc_num_pages (paginator_class self) p)
      else Outcome [] (Raise InvalidPage)
  | Raise e => Outcome [] (Raise e)
  end.
Proof.
  unfold resolve_page_number. destruct (int_ page) as [n|e]; [reflexivity|].
  destruct e; reflexivity.
Qed.

(** [paginate_query_object], case by case. *)
Lemma paginate_query_object_cases self (q : query) page_size :
  paginate_query_object self q page_size =
  match pc_new (paginator_class self) q page_size 0 (allow_empty self) with
  | Raise e => Outcome [EvPaginator page_size 0 (allow_empty self)] (Raise e)
  | Ok p =>
      let r := resolve_page_number self p (requested_page self) in
      match value r with
      | Raise e =>
          Outcome (EvPaginator page_size 0 (allow_empty self) :: trace r) (Raise e)
      | Ok n =>
          match pc_count (paginator_class self) p with
          | Raise e =>
              Outcome (EvPaginator page_size 0 (allow_empty self) :: trace r ++ [EvCount])
                      (Raise e)
          | Ok c =>
              if negb (Z.eqb c 0) then
                Outcome
                  (EvPaginator page_size 0 (allow_empty self)
                     :: trace r ++ [EvCount; EvPage n])
                  match pc_page (paginator_class self) p n with
                  | Ok pg =>
                      Ok (p, pg, object_list pg,
                          pc_has_other_pages (paginator_class self) pg)
                  | Raise e => Raise e
                  end
              else
                Outcome
                  (EvPaginator page_size 0 (allow_empty self) :: trace r ++ [EvCount])
                  (Ok (p, mkPage [] 1 p, [], false))
          end
      end
  end.
Proof.
  unfold paginate_query_object, get_paginator, get_allow_empty. run.
  destruct (pc_new (paginator_class self) q page_size 0 (allow_empty self)) as [p|e];
    [|reflexivity].
  simpl.
  destruct (value (resolve_page_number self p (requested_page self))) as [n|e];
    [|reflexivity].
  simpl.
  destruct (pc_count (paginator_class self) p) as [c|e]; simpl; [|reflexivity].
  destruct (Z.eqb c 0); simpl; [reflexivity|].
  destruct (pc_page (paginator_class self) p n); simpl; rewrite ?app_nil_r;
    reflexivity.
Qed.

(** [get_page] makes the calls of [paginate_query_object] with the view's
    [paginate_by], and keeps the object list of its answer. *)
Lemma get_page_cases self (q : query) :
  get_page self q =
  Outcome (trace (paginate_query_object self q (paginate_by self)))
          match value (paginate_query_object self q (paginate_by self)) with
          | Ok r => Ok r.1.2
          | Raise e => Raise e
          end.
Proof.
  unfold get_page, get_paginate_by, filter_query_object. run.
  destruct (value (paginate_query_object self q (paginate_by self)))
    as [[[[p pg] ol] b]|e]; [|reflexivity].
  simpl. now rewrite app_nil_r.
Qed.

(** X14: a truthy 'page' path parameter wins over the query string; the
    query string's 'page' is used only when the path parameter is absent or
    falsy. *)
Theorem requested_page_precedence self :
  (param_truthy (dict_get (kwargs self) "page") = true ->
   requested_page self = dict_get (kwargs self) "page") /\
  (param_truthy (dict_get (kwargs self) "page") = false ->
   param_truthy (dict_get (GET (request self)) "page") = true ->
   requested_page self = dict_get (GET (request self)) "page").
Proof.
  unfold requested_page, py_or. split.
  - intros ->. reflexivity.
  - intros -> ->. reflexivity.
Qed.

(** X15: when the paginator class's constructor raises, [get_page] raises
    the same exception, having called nothing else. *)
Theorem get_page_constructor_error self (q : query) e :
  pc_new (paginator_class self) q (paginate_by self) 0 (allow_empty self) = Raise e ->
  get_page self q
  = Outcome [EvPaginator (paginate_by self) 0 (allow_empty self)] (Raise e).
Proof.
  intros H. rewrite get_page_cases, paginate_query_object_cases, H. reflexivity.
Qed.

(** X16: whatever happens afterwards, the adapter starts by building one
    paginator from the page size it was given, no orphans, and the view's
    allow-empty flag as [allow_empty_first_page]; it builds no second one. *)
Theorem paginator_built_once self (q : query) page_size :
  exists rest,
    trace (paginate_query_object self q page_size)
    = EvPaginator page_size 0 (allow_empty self) :: rest /\
    forall a b c, EvPaginator a b c ∉ rest.
Proof.
  rewrite paginate_query_object_cases.
  destruct (pc_new (paginator_class self) q page_size 0 (allow_empty self)) as [p|e].
  2:{ exists []. split; [reflexivity|]. intros a b c. no_page_event. }
  cbv zeta. rewrite resolve_page_number_cases.
  destruct (int_ (requested_page self)) as [n|e].
  - simpl. destruct (pc_count (paginator_class self) p) as [c|e']; simpl.
    + destruct (Z.eqb c 0); simpl; eexists; (split; [reflexivity|]);
        intros x y z; no_page_event.
    + eexists; split; [reflexivity|]. intros x y z. no_page_event.
  - assert (Hcase :
      (exists n, (if is_last (requested_page self)
                  then Outcome [EvNumPages] (pc_num_pages (paginator_class self) p)
                  else Outcome [] (Raise InvalidPage))
                 = Outcome [EvNumPages] (Ok n)) \/
      (exists t e', (if is_last (requested_page self)
                     then Outcome [EvNumPages] (pc_num_pages (paginator_class self) p)
                     else Outcome [] (Raise InvalidPage))
                    = Outcome t (Raise e') /\ forall a b c, EvPaginator a b c ∉ t)).
    { destruct (is_last (requested_page self)).
      - destruct (pc_num_pages (paginator_class self) p) as [n|e'].
        + left. now exists n.
        + right. exists [EvNumPages], e'. split; [reflexivity|].
          intros a b c. no_page_event.
      - right. exists [], InvalidPage. split; [reflexivity|].
        intros a b c. no_page_event. }
    destruct e;
      try (simpl; eexists; split; [reflexivity|]; intros x y z; no_page_event).
    destruct Hcase as [[n ->] | [t [e' [-> Ht]]]].
    + simpl. destruct (pc_count (paginator_class self) p) as [c|e']; simpl.
      * destruct (Z.eqb c 0); simpl; eexists; (split; [reflexivity|]);
          intros x y z; no_page_event.
      * eexists; split; [reflexivity|]. intros x y z. no_page_event.
    + simpl. exists t. split; [reflexivity|exact Ht].
Qed.

(** X17: an invalid page identifier (ASCII text that [int] rejects and that
    is not 'last') is rejected before the database is touched: [get_page]
    raises [InvalidPage] having only built the paginator, without reading
    [count] or [num_pages] or fetching a page. *)
Theorem get_page_invalid_page self (q : query) p :
  pc_new (paginator_class self) q (paginate_by self) 0 (allow_empty self) = Ok p ->
  param_is_ascii (requested_page self) = true ->
  (forall n, int_ (requested_page self) <> Ok n) ->
  requested_page self <> PStr "last" ->
  get_page self q
  = Outcome [EvPaginator (paginate_by self) 0 (allow_empty self)] (Raise InvalidPage).
Proof.
  intros Hp _ Hi Hl.
  rewrite get_page_cases, paginate_query_object_cases, Hp. cbv zeta.
  rewrite resolve_page_number_cases, (requested_page_not_int self Hi),
    (is_last_false _ Hl).
  reflexivity.
Qed.

(** X18: for a non-empty query object, an exception of the paginator's
    [page] (such as [EmptyPage] for a number out of range) propagates
    unchanged, after [count] and the one page fetch. *)
Theorem page_error_propagates self (q : query) page_size p n c e :
  pc_new (paginator_class self) q page_size 0 (allow_empty self) = Ok p ->
  int_ (requested_page self) = Ok n ->
  pc_count (paginator_class self) p = Ok c ->
  c <> 0 ->
  pc_page (paginator_class self) p n = Raise e ->
  paginate_query_object self q page_size
  = Outcome [EvPaginator page_size 0 (allow_empty self); EvCount; EvPage n] (Raise e).
Proof.
  intros Hp Hn Hc Hne He.
  rewrite paginate_query_object_cases, Hp. cbv zeta.
  rewrite resolve_page_number_cases, Hn. simpl. rewrite Hc.
  apply Z.eqb_neq in Hne. rewrite Hne. simpl. now rewrite He.
Qed.

(** X19: whatever the page identifier resolved to (an integer page, or
    'last' through [num_pages]), an exception raised while reading [count]
    propagates unchanged and no page is fetched. *)
Theorem count_error_propagates self (q : query) page_size p n e :
  pc_new (paginator_class self) q page_size 0 (allow_empty self) = Ok p ->
  value (resolve_page_number self p (requested_page self)) = Ok n ->
  pc_count (paginator_class self) p = Raise e ->
  value (paginate_query_object self q page_size) = Raise e /\
  forall k, EvPage k ∉ trace (paginate_query_object self q page_size).
Proof.
  intros Hp Hn Hc.
  rewrite paginate_query_object_cases, Hp. cbv zeta. rewrite Hn, Hc. simpl.
  split; [reflexivity|]. intros k.
  rewrite resolve_page_number_cases.
  destruct (int_ (requested_page self)) as [m|e']; [no_page_event|].
  destruct e'; try no_page_event.
  destruct (is_last (requested_page self)); no_page_event.
Qed.

(** X20: for the page 'last', [num_pages] is read before [count]; when it
    raises, the exception propagates and neither [count] nor [page] is
    reached, whether or not the query object is empty. *)
Theorem last_num_pages_error self (q : query) page_size p e :
  pc_new (paginator_class self) q page_size 0 (allow_empty self) = Ok p ->
  requested_page self = PStr "last" ->
  pc_num_pages (paginator_class self) p = Raise e ->
  paginate_query_object self q page_size
  = Outcome [EvPaginator page_size 0 (allow_empty self); EvNumPages] (Raise e).
Proof.
  intros Hp Hl Hn.
  rewrite paginate_query_object_cases, Hp. cbv zeta.
  rewrite resolve_page_number_cases, Hl.
  change (int_ (PStr "last")) with (@Raise Z ValueError).
  change (is_last (PStr "last")) with true. cbv iota. rewrite Hn. reflexivity.
Qed.

End PaginationPaths.

Section PaginationAnswers.

Context {item query paginator : Type}.
Implicit Types (self : View item query paginator) (p : paginator).

(** X21: whenever the adapter answers, the paginator in the tuple is the one
    the constructor returned and the object list is the page's own; the
    page is either one the paginator handed out for a non-zero count,
    coming with its own has-other-pages flag, or, for count 0, the empty
    page 1 with the flag [False]. *)
Theorem paginate_query_object_answer self (q : query) page_size p pg ol b :
  value (paginate_query_object self q page_size) = Ok (p, pg, ol, b) ->
  pc_new (paginator_class self) q page_size 0 (allow_empty self) = Ok p /\
  ol = object_list pg /\
  ((exists c n,
      pc_count (paginator_class self) p = Ok c /\ c <> 0 /\
      pc_page (paginator_class self) p n = Ok pg /\
      b = pc_has_other_pages (paginator_class self) pg) \/
   (pc_count (paginator_class self) p = Ok 0 /\ pg = mkPage [] 1 p /\ b = false)).
Proof.
  rewrite paginate_query_object_cases.
  destruct (pc_new (paginator_class self) q page_size 0 (allow_empty self)) as [p'|e];
    [|discriminate].
  cbv zeta.
  destruct (value (resolve_page_number self p' (requested_page self))) as [n|e];
    [|discriminate].
  destruct (pc_count (paginator_class self) p') as [c|e] eqn:Hc; [|discriminate].
  destruct (Z.eqb c 0) eqn:Hz; simpl.
  - intros H. inversion H; subst. apply Z.eqb_eq in Hz. subst c.
    split; [reflexivity|]. split; [reflexivity|]. right. now rewrite Hc.
  - destruct (pc_page (paginator_class self) p' n) as [pg'|e] eqn:Hp; [|discriminate].
    intros H. inversion H; subst. apply Z.eqb_neq in Hz.
    split; [reflexivity|]. split; [reflexivity|]. left. exists c, n.
    rewrite Hc. repeat split; assumption.
Qed.

(** X22: on a non-empty query object the adapter calls, in this order, the
    constructor, [count] and [page(n)] for an integer page [n], and the
    constructor, [num_pages], [count] and [page(num_pages)] for 'last'; it
    returns the paginator, that page, its object list and its
    has-other-pages flag. *)
Theorem page_fetch_call_order self (q : query) page_size p c pg :
  pc_new (paginator_class self) q page_size 0 (allow_empty self) = Ok p ->
  pc_count (paginator_class self) p = Ok c ->
  c <> 0 ->
  (forall n,
     int_ (requested_page self) = Ok n ->
     pc_page (paginator_class self) p n = Ok pg ->
     paginate_query_object self q page_size
     = Outcome [EvPaginator page_size 0 (allow_empty self); EvCount; EvPage n]
               (Ok (p, pg, object_list pg,
                    pc_has_other_pages (paginator_class self) pg))) /\
  (forall np,
     requested_page self = PStr "last" ->
     pc_num_pages (paginator_class self) p = Ok np ->
     pc_page (paginator_class self) p np = Ok pg ->
     paginate_query_object self q page_size
     = Outcome [EvPaginator page_size 0 (allow_empty self);
                EvNumPages; EvCount; EvPage np]
               (Ok (p, pg, object_list pg,
                    pc_has_other_pages (paginator_class self) pg))).
Proof.
  intros Hp Hc Hne. apply Z.eqb_neq in Hne. split.
  - intros n Hn Hpg. rewrite paginate_query_object_cases, Hp. cbv zeta.
    rewrite resolve_page_number_cases, Hn. simpl. rewrite Hc, Hne. simpl.
    now rewrite Hpg.
  - intros np Hl Hnp Hpg. rewrite paginate_query_object_cases, Hp. cbv zeta.
    rewrite resolve_page_number_cases, Hl.
    change (int_ (PStr "last")) with (@Raise Z ValueError).
    change (is_last (PStr "last")) with true. cbv iota. rewrite Hnp. simpl.
    rewrite Hc, Hne. simpl. now rewrite Hpg.
Qed.

(** X23: for an empty query object and a page identifier that resolves to
    a number, [get_page] returns the empty list. *)
Theorem get_page_empty self (q : query) p n :
  pc_new (paginator_class self) q (paginate_by self) 0 (allow_empty self) = Ok p ->
  value (resolve_page_number self p (requested_page self)) = Ok n ->
  pc_count (paginator_class self) p = Ok 0 ->
  value (get_page self q) = Ok [].
Proof.
  intros Hp Hn Hc. rewrite get_page_cases. simpl.
  rewrite (paginate_query_object_run self q (paginate_by self) p n Hp Hn), Hc.
  reflexivity.
Qed.

(** X24: the adapter reads [num_pages] only for the page 'last'. *)
Theorem num_pages_only_for_last self (q : query) page_size :
  requested_page self <> PStr "last" ->
  EvNumPages ∉ trace (paginate_query_object self q page_size).
Proof.
  intros Hl. rewrite paginate_query_object_cases.
  destruct (pc_new (paginator_class self) q page_size 0 (allow_empty self)) as [p|e];
    [|no_page_event].
  cbv zeta. rewrite resolve_page_number_cases, (is_last_false _ Hl).
  assert (Hr : exists r : result Z,
    match int_ (requested_page self) with
    | Ok n => Outcome [] (Ok n)
    | Raise ValueError => Outcome [] (Raise InvalidPage)
    | Raise e => Outcome [] (Raise e)
    end = Outcome [] r).
  { destruct (int_ (requested_page self)) as [n|e]; [eauto|]. destruct e; eauto. }
  destruct Hr as [r ->]. simpl. destruct r as [n|e]; [|no_page_event].
  destruct (pc_count (paginator_class self) p) as [c|e]; [|no_page_event].
  destruct (Z.eqb c 0); simpl; no_page_event.
Qed.

End PaginationAnswers.

(** ** Concrete runs of the further properties *)

Lemma requested_page_precedence_witness :
  requested_page (routed_view DjangoPaginator (PInt 2) (PStr "3") (PStr "5")) = PStr "3" /\
  requested_page (routed_view DjangoPaginator (PInt 2) PNone (PStr "5")) = PStr "5".
Proof.
  split.
  - apply (proj1 (requested_page_precedence
                    (routed_view DjangoPaginator (PInt 2) (PStr "3") (PStr "5")))).
    reflexivity.
  - apply (proj2 (requested_page_precedence
                    (routed_view DjangoPaginator (PInt 2) PNone (PStr "5"))));
      reflexivity.
Defined.

(** With the class default [paginate_by = None] the default paginator's
    constructor raises. *)
Lemma get_page_constructor_error_witness :
  get_page (routed_view DjangoPaginator PNone PNone PNone) [1; 2; 3]
  = Outcome [EvPaginator PNone 0 true] (Raise TypeError).
Proof.
  apply (get_page_constructor_error
           (routed_view DjangoPaginator PNone PNone PNone) [1; 2; 3] TypeError).
  reflexivity.
Defined.

Lemma get_page_invalid_page_witness :
  get_page (list_view true (PStr "abc")) [1; 2; 3]
  = Outcome [EvPaginator (PInt 2) 0 true] (Raise InvalidPage).
Proof.
  apply (get_page_invalid_page (list_view true (PStr "abc")) [1; 2; 3]
           (mkPaginator [1; 2; 3] 2 0 true)).
  - reflexivity.
  - reflexivity.
  - intros n. vm_compute. discriminate.
  - vm_compute. discriminate.
Defined.

Lemma page_error_propagates_witness :
  paginate_query_object (list_view true (PStr "4")) [1; 2; 3; 4; 5] (PInt 2)
  = Outcome [EvPaginator (PInt 2) 0 true; EvCount; EvPage 4] (Raise EmptyPage).
Proof.
  apply (page_error_propagates (list_view true (PStr "4")) [1; 2; 3; 4; 5] (PInt 2)
           (mkPaginator [1; 2; 3; 4; 5] 2 0 true) 4 5 EmptyPage);
    first [reflexivity | lia].
Defined.

Lemma count_error_propagates_witness :
  (value (paginate_query_object
            (routed_view (BrokenCount (OtherError "OperationalError"))
                         (PInt 2) (PStr "1") PNone)
            [1; 2; 3] (PInt 2))
   = Raise (OtherError "OperationalError") /\
   forall k, EvPage k ∉
     trace (paginate_query_object
              (routed_view (BrokenCount (OtherError "OperationalError"))
                           (PInt 2) (PStr "1") PNone)
              [1; 2; 3] (PInt 2))) /\
  (value (paginate_query_object
            (routed_view (BrokenCount (OtherError "OperationalError"))
                         (PInt 2) (PStr "last") PNone)
            [1; 2; 3] (PInt 2))
   = Raise (OtherError "OperationalError") /\
   forall k, EvPage k ∉
     trace (paginate_query_object
              (routed_view (BrokenCount (OtherError "OperationalError"))
                           (PInt 2) (PStr "last") PNone)
              [1; 2; 3] (PInt 2))).
Proof.
  split.
  - apply (count_error_propagates
             (routed_view (BrokenCount (OtherError "OperationalError"))
                          (PInt 2) (PStr "1") PNone)
             [1; 2; 3] (PInt 2) (mkPaginator [1; 2; 3] 2 0 true) 1
             (OtherError "OperationalError"));
      reflexivity.
  - apply (count_error_propagates
             (routed_view (BrokenCount (OtherError "OperationalError"))
                          (PInt 2) (PStr "last") PNone)
             [1; 2; 3] (PInt 2) (mkPaginator [1; 2; 3] 2 0 true) 2
             (OtherError "OperationalError"));
      reflexivity.
Defined.

Lemma last_num_pages_error_witness :
  paginate_query_object
    (routed_view (BrokenNumPages (OtherError "OperationalError"))
                 (PInt 2) (PStr "last") PNone)
    [] (PInt 2)
  = Outcome [EvPaginator (PInt 2) 0 true; EvNumPages]
            (Raise (OtherError "OperationalError")).
Proof.
  apply (last_num_pages_error
           (routed_view (BrokenNumPages (OtherError "OperationalError"))
                        (PInt 2) (PStr "last") PNone)
           [] (PInt 2) (mkPaginator [] 2 0 true) (OtherError "OperationalError"));
    reflexivity.
Defined.

Lemma paginate_query_object_answer_witness :
  pc_new DjangoPaginator [10; 20; 30] (PInt 2) 0 true
  = Ok (mkPaginator [10; 20; 30] 2 0 true) /\
  [30] = object_list (mkPage [30] 2 (mkPaginator [10; 20; 30] 2 0 true)) /\
  ((exists c n,
      pc_count DjangoPaginator (mkPaginator [10; 20; 30] 2 0 true) = Ok c /\ c <> 0 /\
      pc_page DjangoPaginator (mkPaginator [10; 20; 30] 2 0 true) n
      = Ok (mkPage [30] 2 (mkPaginator [10; 20; 30] 2 0 true)) /\
      true = pc_has_other_pages DjangoPaginator
               (mkPage [30] 2 (mkPaginator [10; 20; 30] 2 0 true))) \/
   (pc_count DjangoPaginator (mkPaginator [10; 20; 30] 2 0 true) = Ok 0 /\
    mkPage [30] 2 (mkPaginator [10; 20; 30] 2 0 true)
    = mkPage [] 1 (mkPaginator [10; 20; 30] 2 0 true) /\
    true = false)).
Proof.
  apply (paginate_query_object_answer (list_view true (PStr "2")) [10; 20; 30] (PInt 2)
           (mkPaginator [10; 20; 30] 2 0 true)
           (mkPage [30] 2 (mkPaginator [10; 20; 30] 2 0 true)) [30] true).
  reflexivity.
Defined.

Lemma page_fetch_call_order_witness :
  paginate_query_object (list_view true (PStr "2")) [10; 20; 30] (PInt 2)
  = Outcome [EvPaginator (PInt 2) 0 true; EvCount; EvPage 2]
            (Ok (mkPaginator [10; 20; 30] 2 0 true,
                 mkPage [30] 2 (mkPaginator [10; 20; 30] 2 0 true), [30], true)) /\
  paginate_query_object (list_view true (PStr "last")) [10; 20; 30; 40; 50] (PInt 2)
  = Outcome [EvPaginator (PInt 2) 0 true; EvNumPages; EvCount; EvPage 3]
            (Ok (mkPaginator [10; 20; 30; 40; 50] 2 0 true,
                 mkPage [50] 3 (mkPaginator [10; 20; 30; 40; 50] 2 0 true), [50], true)).
Proof.
  split.
  - apply (proj1 (page_fetch_call_order (list_view true (PStr "2")) [10; 20; 30]
                    (PInt 2) (mkPaginator [10; 20; 30] 2 0 true) 3
                    (mkPage [30] 2 (mkPaginator [10; 20; 30] 2 0 true))
                    eq_refl eq_refl ltac:(lia)) 2);
      reflexivity.
  - apply (proj2 (page_fetch_call_order (list_view true (PStr "last"))
                    [10; 20; 30; 40; 50] (PInt 2)
                    (mkPaginator [10; 20; 30; 40; 50] 2 0 true) 5
                    (mkPage [50] 3 (mkPaginator [10; 20; 30; 40; 50] 2 0 true))
                    eq_refl eq_refl ltac:(lia)) 3);
      reflexivity.
Defined.

Lemma get_page_empty_witness :
  value (get_page (list_view false (PStr "last")) []) = Ok [].
Proof.
  apply (get_page_empty (list_view false (PStr "last")) []
           (mkPaginator [] 2 0 false) 0); reflexivity.
Defined.

Lemma num_pages_only_for_last_witness :
  EvNumPages ∉ trace (paginate_query_object (list_view true (PStr "2"))
                        [10; 20; 30] (PInt 2)).
Proof.
  apply (num_pages_only_for_last (list_view true (PStr "2")) [10; 20; 30] (PInt 2)).
  vm_compute. discriminate.
Defined.
